(** * Volatility-Adjusted Risk Suite: a shallow embedding

    The development follows the Python sources:
    - [src/config_manager.py]  (class [RiskConfig]),
    - [src/risk_engine.py]     (class [RiskEngine]),
    - [main.py]                (the per-asset loop of [main]).

    Python floats are kept abstract behind the interface [PyFloat], which
    lists the operations the program applies to them.  Two instances are
    given: IEEE-754 binary64 (what CPython and numpy run on), built on the
    kernel's primitive floats, and an exact one over the rationals in
    which a float is either not-a-number or a rational. *)

From Stdlib Require Import ZArith QArith Qround Lqa Lia Floats Ascii.
From stdpp Require Import base option list gmap strings.

Local Open Scope Z_scope.

(** ** Exceptions *)

Inductive exn : Set :=
  | ValueError | ZeroDivisionError | IndexError | KeyError | TypeError.

Inductive pyresult (A : Type) : Type :=
  | Ok (a : A)
  | Raise (e : exn).
Arguments Ok {A} a.
Arguments Raise {A} e.

#[export] Instance pyresult_ret : MRet pyresult := fun A a => Ok a.

#[export] Instance pyresult_bind : MBind pyresult := fun A B k m =>
  match m with
  | Ok a => k a
  | Raise e => Raise e
  end.

(** ** The float interface *)

Class PyFloat (F : Type) : Type := {
  of_Z : Z -> F;             (* float(n) for a Python int n *)
  lit : Q -> F;              (* the float denoted by a decimal literal *)
  nan : F;
  isna : F -> bool;          (* pd.isna, on a float *)
  fadd : F -> F -> F;
  fsub : F -> F -> F;
  fmul : F -> F -> F;
  fdiv : F -> F -> F;        (* numpy's division: no exception *)
  fopp : F -> F;
  feq : F -> F -> bool;      (* x == y, false as soon as one side is nan *)
  flt : F -> F -> bool;      (* x < y, false as soon as one side is nan *)
  fle : F -> F -> bool;      (* x <= y *)
  ftrunc : F -> option Z     (* int(x): towards zero; None when int raises *)
}.

(** The two numpy functions of the volatility estimate are kept apart:
    neither instance below can compute a logarithm. *)
Class NumpyMath (F : Type) : Type := {
  np_log : F -> F;
  np_sqrt : F -> F
}.

(** ** Binary64 *)

Module Binary64.

Definition b64_of_Z (z : Z) : float :=
  match z with
  | Z0 => 0%float
  | Zpos _ => PrimFloat.of_uint63 (Uint63.of_Z z)
  | Zneg p => PrimFloat.opp (PrimFloat.of_uint63 (Uint63.of_Z (Zpos p)))
  end.

(* For numerator and denominator below 2^53 the quotient of the two
   exactly converted integers is the correctly rounded value of p/q,
   which is what the Python parser and json.load produce. *)
Definition b64_lit (q : Q) : float :=
  PrimFloat.div (b64_of_Z (Qnum q)) (b64_of_Z (Zpos (Qden q))).

Definition b64_trunc (x : float) : option Z :=
  match Prim2SF x with
  | S754_zero _ => Some 0
  | S754_finite s m e =>
      let a := if 0 <=? e then Zpos m * 2 ^ e else Zpos m / 2 ^ (- e) in
      Some (if s then - a else a)
  | S754_infinity _ | S754_nan => None
  end.

#[export] Instance binary64 : PyFloat float := {|
  of_Z := b64_of_Z;
  lit := b64_lit;
  nan := PrimFloat.nan;
  isna := PrimFloat.is_nan;
  fadd := PrimFloat.add;
  fsub := PrimFloat.sub;
  fmul := PrimFloat.mul;
  fdiv := PrimFloat.div;
  fopp := PrimFloat.opp;
  feq := PrimFloat.eqb;
  flt := PrimFloat.ltb;
  fle := PrimFloat.leb;
  ftrunc := b64_trunc
|}.

(* The kernel has a square root but no logarithm. *)
Definition b64_numpy (log : float -> float) : NumpyMath float :=
  {| np_log := log; np_sqrt := PrimFloat.sqrt |}.

End Binary64.

(** ** Exact arithmetic *)

Module Exact.

Inductive xreal : Set :=
  | XNaN
  | XFin (q : Q).

Definition lift2 (f : Q -> Q -> Q) (x y : xreal) : xreal :=
  match x, y with
  | XFin a, XFin b => XFin (f a b)
  | _, _ => XNaN
  end.

Definition cmp2 (f : Q -> Q -> bool) (x y : xreal) : bool :=
  match x, y with
  | XFin a, XFin b => f a b
  | _, _ => false
  end.

Definition Qlt_bool (a b : Q) : bool := negb (Qle_bool b a).

(* Division by zero and the logarithm of a non-positive number give an
   infinity or nan in IEEE arithmetic; this instance has no infinities
   and answers nan. *)
Definition xdiv (x y : xreal) : xreal :=
  match x, y with
  | XFin a, XFin b => if Qeq_bool b 0 then XNaN else XFin (a / b)
  | _, _ => XNaN
  end.

Definition xtrunc (x : xreal) : option Z :=
  match x with
  | XFin q => Some (Z.quot (Qnum q) (Zpos (Qden q)))
  | XNaN => None
  end.

#[export] Instance exact : PyFloat xreal := {|
  of_Z := fun z => XFin (inject_Z z);
  lit := XFin;
  nan := XNaN;
  isna := fun x => match x with XNaN => true | XFin _ => false end;
  fadd := lift2 Qplus;
  fsub := lift2 Qminus;
  fmul := lift2 Qmult;
  fdiv := xdiv;
  fopp := fun x => match x with XFin q => XFin (- q) | XNaN => XNaN end;
  feq := cmp2 Qeq_bool;
  flt := cmp2 Qlt_bool;
  fle := cmp2 Qle_bool;
  ftrunc := xtrunc
|}.

(* Logarithm and square root, given as functions on the rationals:
   defined on the positive, respectively the non-negative, numbers. *)
Definition xlog (ln : Q -> Q) (x : xreal) : xreal :=
  match x with
  | XFin q => if Qlt_bool 0 q then XFin (ln q) else XNaN
  | XNaN => XNaN
  end.

Definition xsqrt (sqrt : Q -> Q) (x : xreal) : xreal :=
  match x with
  | XFin q => if Qlt_bool q 0 then XNaN else XFin (sqrt q)
  | XNaN => XNaN
  end.

Definition xnumpy (ln sqrt : Q -> Q) : NumpyMath xreal :=
  {| np_log := xlog ln; np_sqrt := xsqrt sqrt |}.

End Exact.

(** ** The pandas and numpy operations the program calls

    A [Series] is the list of its (index label, value) pairs in storage
    order; the labels are dates, counted in days. *)

Abbreviation Series F := (list (Z * F)).

Module pd.
Section Ops.
Context {F : Type} `{PyFloat F} `{NumpyMath F}.

Definition notna (x : F) : Prop := isna x = false.

Definition dropna (xs : list F) : list F := filter notna xs.

(* Series.shift(1) *)
Definition shift (s : Series F) : Series F := zip (s.*1) (nan :: s.*2).

(* s1 / s2 for two series over the same index *)
Definition div (s1 s2 : Series F) : Series F :=
  zip_with (fun a b => (a.1, fdiv a.2 b.2)) s1 s2.

Definition map_values (f : F -> F) (s : Series F) : Series F :=
  prod_map id f <$> s.

(* Series.tail(n): the last n rows; none for n = 0; all but the first
   |n| for a negative n. *)
Definition tail {A} (n : Z) (l : list A) : list A :=
  if n =? 0 then []
  else if 0 <? n then drop (length l - Z.to_nat n) l
  else drop (Z.to_nat (- n)) l.

(* float(s.iloc[-1]) *)
Definition iloc_last (s : Series F) : pyresult F :=
  match last s with
  | Some e => Ok e.2
  | None => Raise IndexError
  end.

(* The rows t-w+1 .. t of a column. *)
Definition window_at {A} (w t : nat) (xs : list A) : list A :=
  drop (t + 1 - w) (take (t + 1) xs).

(* np.isinf: of the floats that are not nan, x - x is nan exactly at the
   two infinities. *)
Definition isinf (x : F) : bool := negb (isna x) && isna (fsub x x).

(* BaseWindow._prep_values: the infinities become nan before the
   aggregation sees the column. *)
Definition prep_values (xs : list F) : list F :=
  (fun x => if isinf x then nan else x) <$> xs.

(* Rolling.std() is zsqrt(roll_var(values, start, end, min_periods, 1)):
   an online computation that keeps a running mean and a running sum of
   squared deviations, adds the value that enters the window and removes
   the one that leaves it (pandas 2.x, pandas/_libs/window/aggregations.pyx
   and pandas/core/window/rolling.py).  In floating point the state keeps
   rounding residue of the values that have left the window.

   The variables roll_var carries from row to row: *)
Record var_state : Type := VarState {
  nobs : Z;
  mean_x : F;
  ssqdm_x : F;
  compensation_add : F;
  compensation_remove : F;
  num_consecutive_same_value : Z;
  prev_value : F
}.

(* mean_x = ssqdm_x = nobs = compensation_add = compensation_remove = 0,
   num_consecutive_same_value = 0, prev_value = values[s] *)
Definition var_reset (first : F) : var_state :=
  {| nobs := 0; mean_x := of_Z 0; ssqdm_x := of_Z 0;
     compensation_add := of_Z 0; compensation_remove := of_Z 0;
     num_consecutive_same_value := 0; prev_value := first |}.

(* add_var: Welford's update with Kahan compensation; a nan is skipped. *)
Definition add_var (st : var_state) (val : F) : var_state :=
  if isna val then st
  else
    let nobs' := nobs st + 1 in
    let same := if feq val (prev_value st)
                then num_consecutive_same_value st + 1 else 1 in
    let prev_mean := fsub (mean_x st) (compensation_add st) in
    let y := fsub val (compensation_add st) in
    let t := fsub y (mean_x st) in
    let compensation := fsub (fadd t (mean_x st)) y in
    let delta := t in
    let mean' := if nobs' =? 0 then of_Z 0
                 else fadd (mean_x st) (fdiv delta (of_Z nobs')) in
    {| nobs := nobs';
       mean_x := mean';
       ssqdm_x := fadd (ssqdm_x st)
                    (fmul (fsub val prev_mean) (fsub val mean'));
       compensation_add := compensation;
       compensation_remove := compensation_remove st;
       num_consecutive_same_value := same;
       prev_value := val |}.

(* remove_var: the update undone for a value that leaves the window. *)
Definition remove_var (st : var_state) (val : F) : var_state :=
  if isna val then st
  else
    let nobs' := nobs st - 1 in
    if nobs' =? 0 then
      {| nobs := nobs'; mean_x := of_Z 0; ssqdm_x := of_Z 0;
         compensation_add := compensation_add st;
         compensation_remove := compensation_remove st;
         num_consecutive_same_value := num_consecutive_same_value st;
         prev_value := prev_value st |}
    else
      let prev_mean := fsub (mean_x st) (compensation_remove st) in
      let y := fsub val (compensation_remove st) in
      let t := fsub y (mean_x st) in
      let compensation := fsub (fadd t (mean_x st)) y in
      let delta := t in
      let mean' := fsub (mean_x st) (fdiv delta (of_Z nobs')) in
      {| nobs := nobs';
         mean_x := mean';
         ssqdm_x := fsub (ssqdm_x st)
                      (fmul (fsub val prev_mean) (fsub val mean'));
         compensation_add := compensation_add st;
         compensation_remove := compensation;
         num_consecutive_same_value := num_consecutive_same_value st;
         prev_value := prev_value st |}.

(* calc_var with ddof = 1 *)
Definition calc_var (minp : Z) (st : var_state) : F :=
  if (minp <=? nobs st) && (1 <? nobs st) then
    if (nobs st =? 1) || (nobs st <=? num_consecutive_same_value st)
    then of_Z 0
    else fdiv (ssqdm_x st) (fsub (of_Z (nobs st)) (of_Z 1))
  else nan.

(* The body of roll_var's loop at row i, for the bounds of a fixed window
   of w rows: start[i] = max(0, i + 1 - w) and end[i] = i + 1.  The
   state is rebuilt from the window when i = 0 or start[i] >= end[i-1];
   otherwise the rows start[i-1] .. start[i]-1 are removed and the rows
   end[i-1] .. end[i]-1 are added. *)
Definition roll_var_step (values : list F) (w : nat) (st : var_state)
    (i : nat) : var_state :=
  let s := (i + 1 - w)%nat in
  let e := (i + 1)%nat in
  if (i =? 0)%nat || (i <=? s)%nat then
    foldl add_var (var_reset (default nan (values !! s)))
          (drop s (take e values))
  else
    let removed := foldl remove_var st (drop (i - w) (take s values)) in
    foldl add_var removed (drop i (take e values)).

(* The rows i, i+1, .., i+n-1 of roll_var's output, from the state the
   loop holds when it reaches row i. *)
Fixpoint roll_var_from (values : list F) (w : nat) (minp : Z)
    (st : var_state) (i n : nat) : list F :=
  match n with
  | O => []
  | S n' =>
      let st' := roll_var_step values w st i in
      calc_var minp st' :: roll_var_from values w minp st' (S i) n'
  end.

(* roll_var(values, start, end, minp, ddof=1) *)
Definition roll_var (values : list F) (w : nat) (minp : Z) : list F :=
  roll_var_from values w (Z.max minp 1) (var_reset nan) 0 (length values).

(* zsqrt: the square root, with 0 for a negative argument. *)
Definition zsqrt (x : F) : F := if flt x (of_Z 0) then of_Z 0 else np_sqrt x.

(* Series.rolling(window, min_periods).std(): the arguments are validated
   (ValueError for a negative min_periods or window, or min_periods above
   the window), the column is prepared and aggregated, and the result
   carries the index of the input. *)
Definition rolling_std (window min_periods : Z) (s : Series F)
  : pyresult (Series F) :=
  if (min_periods <? 0) || (window <? 0) || (window <? min_periods)
  then Raise ValueError
  else
    Ok (zip (s.*1)
            (zsqrt <$> roll_var (prep_values (s.*2)) (Z.to_nat window)
                         min_periods)).

(* Series.max(): nan entries are skipped; nan when nothing is left. *)
Definition max (s : Series F) : F :=
  foldl (fun m v => if isna m then v else if flt m v then v else m)
        nan (dropna (s.*2)).

(* Series.idxmax(): the label of the first row holding the maximum. *)
Definition idxmax (s : Series F) : pyresult Z :=
  match filter (fun e => notna e.2) s with
  | [] => Raise ValueError
  | e :: es =>
      Ok (foldl (fun m x => if flt m.2 x.2 then x else m) e es).1
  end.

(* float(s.loc[label]) *)
Definition loc (s : Series F) (label : Z) : pyresult F :=
  match filter (fun e => e.1 = label) s with
  | [] => Raise KeyError
  | [e] => Ok e.2
  | _ => Raise TypeError
  end.

Fixpoint is_monotonic_increasing (idx : list Z) : bool :=
  match idx with
  | a :: (b :: _) as rest => (a <=? b) && is_monotonic_increasing rest
  | _ => true
  end.

(* The backward scan of Series.asof: from row i down to the first row
   that holds a value, or to row 0. *)
Fixpoint asof_scan (values : list F) (i : nat) : F :=
  match i with
  | O => default nan (values !! O)
  | S j =>
      let v := default nan (values !! i) in
      if isna v then asof_scan values j else v
  end.

(* float(s.asof(where)) for a scalar [where] *)
Definition asof (s : Series F) (where_ : Z) : pyresult F :=
  if negb (is_monotonic_increasing (s.*1)) then Raise ValueError
  else
    match s with
    | [] => Raise IndexError
    | (start, _) :: _ =>
        if where_ <? start then Ok nan
        else
          (* index.searchsorted(where, side="right") *)
          let i := length (filter (fun d => d <= where_) (s.*1)) in
          Ok (asof_scan (s.*2) (i - 1))
    end.

Fixpoint insert_sorted (x : F) (xs : list F) : list F :=
  match xs with
  | [] => [x]
  | y :: ys => if fle x y then x :: xs else y :: insert_sorted x ys
  end.

Definition sort (xs : list F) : list F := foldr insert_sorted [] xs.

(* numpy's _lerp *)
Definition lerp (a b t : F) : F :=
  if fle (lit 0.5) t
  then fsub b (fmul (fsub b a) (fsub (of_Z 1) t))
  else fadd a (fmul (fsub b a) t).

(* np.quantile(xs, q), method "linear", on nan-free data *)
Definition np_quantile (xs : list F) (q : F) : pyresult F :=
  let arr := sort xs in
  let n := length arr in
  let virtual := fmul (of_Z (Z.of_nat n - 1)) q in
  match ftrunc virtual with
  | None => Raise ValueError
  | Some lo =>
      let prev := Z.to_nat lo in
      let next := Nat.min (prev + 1) (n - 1) in
      let gamma := fsub virtual (of_Z lo) in
      Ok (lerp (default nan (arr !! prev)) (default nan (arr !! next)) gamma)
  end.

(* float(s.quantile(q)): q is validated, nan entries are masked out,
   and an empty remainder gives nan. *)
Definition quantile (s : Series F) (q : F) : pyresult F :=
  if negb (fle (of_Z 0) q && fle q (of_Z 1)) then Raise ValueError
  else
    match dropna (s.*2) with
    | [] => Ok nan
    | xs => np_quantile xs q
    end.

End Ops.
End pd.

(** ** config_manager.py *)

(** The "settings" object of config.json.  An absent key is [None]; the
    two keys of the nested "dynamic_floor" object are kept flat. *)
Record Settings (F : Type) : Type := {
  volatility_window : option Z;
  crypto_trading_days : option Z;
  stock_trading_days : option Z;
  max_crash_cap : option F;
  lookback_years : option F;
  percentile : option F;
  lookback_days : option Z;
  drift_lookback_days : option Z
}.
Arguments volatility_window {F} _.
Arguments crypto_trading_days {F} _.
Arguments stock_trading_days {F} _.
Arguments max_crash_cap {F} _.
Arguments lookback_years {F} _.
Arguments percentile {F} _.
Arguments lookback_days {F} _.
Arguments drift_lookback_days {F} _.

Record RiskConfig (F : Type) : Type := {
  assets : list string;
  settings : Settings F;
  multipliers : gmap string F
}.
Arguments assets {F} _.
Arguments settings {F} _.
Arguments multipliers {F} _.

(** ** risk_engine.py *)

Section RiskEngine.
Context {F : Type} `{PyFloat F} `{NumpyMath F}.
Variable config : RiskConfig F.

(* settings.get(key, dflt) *)
Definition get {A} (field : Settings F -> option A) (dflt : A) : A :=
  default dflt (field (settings config)).

(* settings[key] *)
Definition getitem {A} (field : Settings F -> option A) : pyresult A :=
  match field (settings config) with
  | Some v => Ok v
  | None => Raise KeyError
  end.

Definition get_annual_days (ticker : string) : Z :=
  match String.index 0 "-" ticker with
  | Some _ => get crypto_trading_days 365
  | None => get stock_trading_days 252
  end.

Definition min_periods : Z := 5.

Definition calculate_volatility (prices : Series F) (annual_days : Z)
  : pyresult (Series F) :=
  let window := get volatility_window 30 in
  let log_ret := pd.map_values np_log (pd.div prices (pd.shift prices)) in
  rolling ← pd.rolling_std window min_periods log_ret;
  Ok (pd.map_values (fun v => fmul v (np_sqrt (of_Z annual_days))) rolling).

Definition fallback_floor : F := lit 0.50.

(* int(x) *)
Definition int (x : F) : pyresult Z :=
  match ftrunc x with
  | Some z => Ok z
  | None => Raise ValueError
  end.

Definition calculate_dynamic_floor (rolling_vol : Series F) (annual_days : Z)
  : pyresult F :=
  let years := get lookback_years (of_Z 5) in
  let percentile := get percentile (lit 0.25) in
  window_size ← int (fmul years (of_Z annual_days));
  if Z.of_nat (length rolling_vol) <? window_size then Ok fallback_floor
  else
    let history := pd.tail window_size rolling_vol in
    pd.quantile history percentile.

Definition price_key (name : string) : string := name +:+ " Price".

Definition capped_crash (max_cap vol mult : F) : F :=
  let crash := fmul vol mult in
  if flt max_cap crash then max_cap else crash.

Definition compute_safe_prices (vol cycle_high : F)
  : gmap string (option F) :=
  if isna vol then
    map_fold (fun name _ res => <[price_key name := None]> res)
             ∅ (multipliers config)
  else
    let max_cap := get max_crash_cap (lit 0.85) in
    map_fold (fun name mult res =>
                let crash := capped_crash max_cap vol mult in
                <[price_key name :=
                    Some (fmul cycle_high (fsub (of_Z 1) crash))]> res)
             ∅ (multipliers config).

End RiskEngine.

(** ** main.py *)

(** The survival-check cell of a drift row:
    - [Insufficient_History] is the text "Insufficient History" (after a
      warning sign),
    - [LIQUIDATED] is the text "LIQUIDATED" (after a cross mark),
    - [SAFE margin] is the text "SAFE (+m)", m being the margin printed as
      a percentage with one decimal. *)
Inductive verdict (F : Type) : Type :=
  | Insufficient_History
  | LIQUIDATED
  | SAFE (margin : F).
Arguments Insufficient_History {F}.
Arguments LIQUIDATED {F}.
Arguments SAFE {F} margin.

(** A row of the "Current Risk" sheet.  The fixed keys of the dictionary
    are the fields; [safe_prices] is what [row_curr.update] adds. *)
Record CurrentRow (F : Type) : Type := {
  Ticker : string;
  Price : F;
  Cycle_High : F;
  Drawdown : F;
  Raw_Vol : F;
  Dynamic_Floor : F;
  Floor_Active : string;
  safe_prices : gmap string (option F)
}.
Arguments Ticker {F} _.
Arguments Price {F} _.
Arguments Cycle_High {F} _.
Arguments Drawdown {F} _.
Arguments Raw_Vol {F} _.
Arguments Dynamic_Floor {F} _.
Arguments Floor_Active {F} _.
Arguments safe_prices {F} _.

(** A row of the "Leverage Drift" sheet; [ATH_limits] holds the keys
    prefixed with "ATH ". *)
Record DriftRow (F : Type) : Type := {
  Drift_Ticker : string;
  ATH_Date : Z;
  ATH_Price : F;
  ATH_Vol : F;
  Current_Price : F;
  ATH_limits : gmap string (option F);
  SURVIVAL_CHECK : verdict F
}.
Arguments Drift_Ticker {F} _.
Arguments ATH_Date {F} _.
Arguments ATH_Price {F} _.
Arguments ATH_Vol {F} _.
Arguments Current_Price {F} _.
Arguments ATH_limits {F} _.
Arguments SURVIVAL_CHECK {F} _.

Section Main.
Context {F : Type} `{PyFloat F} `{NumpyMath F}.
Variable config : RiskConfig F.
(* DataLoader.fetch_history, reduced to the "Close" column: [None] when
   the download failed or came back empty. *)
Variable fetch_history : string -> option (Series F).

(* max(a, b) of the Python builtins *)
Definition py_max (a b : F) : F := if flt a b then b else a.

(* a / b on Python floats *)
Definition truediv (a b : F) : pyresult F :=
  if feq b (of_Z 0) then Raise ZeroDivisionError else Ok (fdiv a b).

(* lines 90-93: the volatility at the date of the high *)
Definition lookup_ath_vol (vol_series : Series F) (ath_date : Z)
  : pyresult F :=
  match pd.loc vol_series ath_date with
  | Raise KeyError => pd.asof vol_series ath_date
  | r => r
  end.

(* lines 110-118 *)
Definition survival_check (hist_limits : gmap string (option F))
    (current_price : F) : pyresult (verdict F) :=
  let hk_price := hist_limits !! "Half Kelly Price" ≫= id in
  match hk_price with
  | None => Ok Insufficient_History
  | Some hk =>
      if isna hk then Ok Insufficient_History
      else if fle current_price hk then Ok LIQUIDATED
      else
        margin ← truediv (fsub current_price hk) current_price;
        Ok (SAFE margin)
  end.

(* lines 60-82 *)
Definition current_risk (ticker : string) (prices vol_series : Series F)
    (annual_days : Z) (current_price raw_vol : F)
  : pyresult (CurrentRow F) :=
  floor ← calculate_dynamic_floor config vol_series annual_days;
  let effective_vol := py_max raw_vol floor in
  let is_floored := flt raw_vol effective_vol in
  lookback ← getitem config lookback_days;
  let cycle_high := pd.max (pd.tail lookback prices) in
  drawdown ← truediv (fsub cycle_high current_price) cycle_high;
  Ok {| Ticker := ticker;
        Price := current_price;
        Cycle_High := cycle_high;
        Drawdown := fopp drawdown;
        Raw_Vol := raw_vol;
        Dynamic_Floor := floor;
        Floor_Active := if is_floored then "YES" else "No";
        safe_prices := compute_safe_prices config effective_vol cycle_high |}.

(* lines 85-120 *)
Definition leverage_drift (ticker : string) (prices vol_series : Series F)
    (current_price : F) : pyresult (DriftRow F) :=
  drift_days ← getitem config drift_lookback_days;
  let window := pd.tail drift_days prices in
  ath_date ← pd.idxmax window;
  let ath_price := pd.max window in
  ath_vol ← lookup_ath_vol vol_series ath_date;
  let hist_limits := compute_safe_prices config ath_vol ath_price in
  check ← survival_check hist_limits current_price;
  Ok {| Drift_Ticker := ticker;
        ATH_Date := ath_date;
        ATH_Price := ath_price;
        ATH_Vol := ath_vol;
        Current_Price := current_price;
        ATH_limits :=
          map_fold (fun k v row => <["ATH " +:+ k := v]> row) ∅ hist_limits;
        SURVIVAL_CHECK := check |}.

(* The body of the loop over the assets, from the price column on:
   [None] is the "continue" after the insufficient-data warning. *)
Definition process (ticker : string) (prices : Series F)
  : pyresult (option (CurrentRow F * DriftRow F)) :=
  let annual_days := get_annual_days config ticker in
  vol_series ← calculate_volatility config prices annual_days;
  current_price ← pd.iloc_last prices;
  raw_vol ← pd.iloc_last vol_series;
  if isna raw_vol then Ok None
  else
    row_curr ← current_risk ticker prices vol_series annual_days
                 current_price raw_vol;
    row_drift ← leverage_drift ticker prices vol_series current_price;
    Ok (Some (row_curr, row_drift)).

(* The loop of [main] with its two accumulators. *)
Fixpoint main_loop (tickers : list string)
    (current_results : list (CurrentRow F))
    (drift_results : list (DriftRow F))
  : pyresult (list (CurrentRow F) * list (DriftRow F)) :=
  match tickers with
  | [] => Ok (current_results, drift_results)
  | ticker :: rest =>
      match fetch_history ticker with
      | None => main_loop rest current_results drift_results
      | Some prices =>
          r ← process ticker prices;
          match r with
          | None => main_loop rest current_results drift_results
          | Some (row_curr, row_drift) =>
              main_loop rest (current_results ++ [row_curr])
                             (drift_results ++ [row_drift])
          end
      end
  end.

Definition main : pyresult (list (CurrentRow F) * list (DriftRow F)) :=
  main_loop (assets config) [] [].

End Main.

(** ** tests/test_risk_engine.py: the fixture [mock_config] *)

Definition mock_settings {F : Type} `{PyFloat F} : Settings F := {|
  volatility_window := Some 30;
  crypto_trading_days := Some 365;
  stock_trading_days := Some 252;
  max_crash_cap := Some (lit 0.85);
  lookback_years := Some (of_Z 5);
  percentile := Some (lit 0.25);
  lookback_days := None;
  drift_lookback_days := None
|}.

Definition mock_config {F : Type} `{PyFloat F} : RiskConfig F := {|
  assets := [];
  settings := mock_settings;
  multipliers := {[ "Half Kelly" := lit 1.5 ]}
|}.

(** A configuration that also carries the two windows [main] reads: the
    fixture's settings, one year for the cycle high and five for the
    drift. *)
Definition run_config {F : Type} `{PyFloat F} : RiskConfig F := {|
  assets := ["BTC-USD"];
  settings := {|
    volatility_window := Some 30;
    crypto_trading_days := Some 365;
    stock_trading_days := Some 252;
    max_crash_cap := Some (lit 0.85);
    lookback_years := Some (of_Z 5);
    percentile := Some (lit 0.25);
    lookback_days := Some 365;
    drift_lookback_days := Some 1825
  |};
  multipliers := {[ "Half Kelly" := lit 1.5 ]}
|}.

(** A series over the dates 0, 1, 2, ... *)
Definition daily {F : Type} (values : list F) : Series F :=
  imap (fun i v => (Z.of_nat i, v)) values.

(** Rational approximations of the logarithm (the first term of its
    series in (x-1)/(x+1)) and of the square root (Newton's iteration,
    cut to twelve decimals at each step), to run the exact instance on
    examples.  No theorem depends on them: those on the volatility
    estimate hold for every pair of functions. *)
Definition ln_approx (q : Q) : Q := Qred (2 * (q - 1) / (q + 1)).

Definition decimals12 (q : Q) : Q :=
  Qred (Qfloor (q * 1000000000000) # 1000000000000).

Definition sqrt_approx (q : Q) : Q :=
  Nat.iter 40 (fun x => decimals12 ((x + q / x) / 2) + (1 # 1000000000000))%Q
    (decimals12 ((q + 1) / 2)).

Definition numpy_approx : NumpyMath Exact.xreal :=
  Exact.xnumpy ln_approx sqrt_approx.

(** The same approximation of the logarithm on binary64. *)
Definition log_approx64 (x : float) : float :=
  PrimFloat.div (PrimFloat.mul 2 (PrimFloat.sub x 1)) (PrimFloat.add x 1).

Definition numpy_approx64 : NumpyMath float :=
  Binary64.b64_numpy log_approx64.

(** * Properties *)

(** ** Keys of the safe-price dictionaries *)

Lemma length_append (s t : string) :
  String.length (s +:+ t) = (String.length s + String.length t)%nat.
Proof. induction s as [|c s IH]; simpl; [done | by rewrite IH]. Qed.

Lemma append_inj_r (t s1 s2 : string) : s1 +:+ t = s2 +:+ t -> s1 = s2.
Proof.
  revert s2. induction s1 as [|c s1 IH]; intros [|d s2] E; simpl in E.
  - done.
  - apply (f_equal String.length) in E.
    rewrite !length_append in E. simpl in E. lia.
  - apply (f_equal String.length) in E.
    rewrite !length_append in E. simpl in E. lia.
  - injection E as -> E. by rewrite (IH _ E).
Qed.

#[export] Instance price_key_inj : Inj (=) (=) price_key.
Proof. intros s1 s2. apply append_inj_r. Qed.

(** A loop [for k, x in m.items(): res[key(k)] = g(x)] over an injective
    key: the result has exactly the renamed keys. *)
Section KeyedLoop.
Context {A B : Type} (key : string -> string) `{!Inj (=) (=) key}.
Variable g : A -> B.

Definition keyed_loop (m : gmap string A) : gmap string B :=
  map_fold (fun k x res => <[key k := g x]> res) ∅ m.

Lemma keyed_loop_spec (m : gmap string A) :
  (forall name, keyed_loop m !! key name = g <$> m !! name) /\
  (forall k v, keyed_loop m !! k = Some v ->
     exists name x, k = key name /\ m !! name = Some x /\ v = g x).
Proof.
  unfold keyed_loop.
  apply (map_fold_weak_ind
           (fun r m => (forall name, r !! key name = g <$> m !! name) /\
                       (forall k v, r !! k = Some v ->
                          exists name x,
                            k = key name /\ m !! name = Some x /\ v = g x))).
  - split; [intros name | intros k v]; by rewrite !lookup_empty.
  - intros i x m' r Hi [IH1 IH2]. split.
    + intros name. destruct (decide (i = name)) as [->|Hne].
      * by rewrite !lookup_insert_eq.
      * rewrite !lookup_insert_ne; [apply IH1 | done |].
        intros E. by apply Hne, (inj key).
    + intros k v. destruct (decide (key i = k)) as [<-|Hne].
      * rewrite lookup_insert_eq. intros [= <-].
        exists i, x. by rewrite lookup_insert_eq.
      * rewrite lookup_insert_ne by done. intros Hk.
        destruct (IH2 _ _ Hk) as (name & y & -> & Hm & ->).
        exists name, y. split_and!; [done | | done].
        rewrite lookup_insert_ne; [done |]. by intros ->.
Qed.

Lemma keyed_loop_lookup (m : gmap string A) (name : string) :
  keyed_loop m !! key name = g <$> m !! name.
Proof. apply keyed_loop_spec. Qed.

Lemma keyed_loop_inv (m : gmap string A) (k : string) (v : B) :
  keyed_loop m !! k = Some v ->
  exists name x, k = key name /\ m !! name = Some x /\ v = g x.
Proof. apply keyed_loop_spec. Qed.
End KeyedLoop.

(** ** The Safe-Price Projector *)

Section SafePrices.
Context {F : Type} `{PyFloat F}.
Variable config : RiskConfig F.

(* min(a, b) of the Python builtins *)
Definition py_min (a b : F) : F := if flt b a then b else a.

Definition max_cap : F := get config max_crash_cap (lit 0.85).

Definition projected (vol cycle_high mult : F) : F :=
  fmul cycle_high (fsub (of_Z 1) (py_min (fmul vol mult) max_cap)).

Lemma compute_safe_prices_nan_eq (vol cycle_high : F) :
  isna vol = true ->
  compute_safe_prices config vol cycle_high
  = keyed_loop price_key (fun _ => None) (multipliers config).
Proof. intros E. unfold compute_safe_prices. by rewrite E. Qed.

Lemma compute_safe_prices_defined_eq (vol cycle_high : F) :
  isna vol = false ->
  compute_safe_prices config vol cycle_high
  = keyed_loop price_key (fun mult => Some (projected vol cycle_high mult))
      (multipliers config).
Proof. intros E. unfold compute_safe_prices. by rewrite E. Qed.

Lemma compute_safe_prices_lookup (vol cycle_high : F) (name : string)
    (mult : F) :
  isna vol = false ->
  multipliers config !! name = Some mult ->
  compute_safe_prices config vol cycle_high !! price_key name
  = Some (Some (projected vol cycle_high mult)).
Proof.
  intros E Hm. rewrite compute_safe_prices_defined_eq by done.
  by rewrite (keyed_loop_lookup price_key), Hm.
Qed.

Lemma compute_safe_prices_absent (vol cycle_high : F) (name : string) :
  multipliers config !! name = None ->
  compute_safe_prices config vol cycle_high !! price_key name = None.
Proof.
  intros Hm. destruct (isna vol) eqn:E.
  - rewrite compute_safe_prices_nan_eq by done.
    by rewrite (keyed_loop_lookup price_key), Hm.
  - rewrite compute_safe_prices_defined_eq by done.
    by rewrite (keyed_loop_lookup price_key), Hm.
Qed.

Lemma compute_safe_prices_undefined (vol cycle_high : F) :
  isna vol = true ->
  (forall name, is_Some (multipliers config !! name) ->
     compute_safe_prices config vol cycle_high !! price_key name
     = Some None) /\
  (forall key v, compute_safe_prices config vol cycle_high !! key = Some v ->
     v = None).
Proof.
  intros E. rewrite compute_safe_prices_nan_eq by done. split.
  - intros name [mult Hm]. by rewrite (keyed_loop_lookup price_key), Hm.
  - intros key v Hk.
    by destruct (keyed_loop_inv price_key _ _ _ _ Hk) as (? & ? & _ & _ & ->).
Qed.
End SafePrices.


(** ** Claims about the projector *)

Import Binary64 Exact.

(** C2. Called with an undefined volatility, the projector returns a
    dictionary that holds the key of every configured multiplier, mapped to
    None, and holds nothing else: no entry is zero, and being a total
    function it raises nothing. *)
Theorem safe_prices_undefined_vol {F : Type} `{PyFloat F}
    (config : RiskConfig F) (vol cycle_high : F) :
  isna vol = true ->
  (forall name, is_Some (multipliers config !! name) ->
     compute_safe_prices config vol cycle_high !! price_key name = Some None) /\
  (forall key v, compute_safe_prices config vol cycle_high !! key = Some v ->
     v = None).
Proof. apply compute_safe_prices_undefined. Qed.

Lemma safe_prices_undefined_vol_witness :
  isna (nan : float) = true /\
  compute_safe_prices (F := float) mock_config nan (lit 100)
    !! "Half Kelly Price" = Some None.
Proof.
  split; [reflexivity |].
  destruct (safe_prices_undefined_vol (F := float) mock_config nan (lit 100))
    as [W _]; [reflexivity |].
  apply (W "Half Kelly"). exists (lit 1.5). reflexivity.
Defined.

(** C3, as stated, fails on the floats of the program: for vol = 10.0,
    multiplier 1.5, cap 0.85 and reference price 100.0 the price that comes
    out is not the float 15.0. *)
Lemma safe_price_hard_cap_not_15 :
  compute_safe_prices (F := float) mock_config (lit 10) (lit 100)
    !! "Half Kelly Price" <> Some (Some (lit 15)).
Proof.
  intros E.
  assert (E' : match compute_safe_prices (F := float) mock_config (lit 10)
                       (lit 100) !! "Half Kelly Price" with
               | Some (Some price) => PrimFloat.eqb price 15
               | _ => false
               end = true) by (rewrite E; reflexivity).
  vm_compute in E'. discriminate.
Qed.

(** C3, amended.  For a defined volatility and every (name, multiplier)
    pair the projector stores, under the key of the name, the price
    referencePrice * (1 - min(vol * multiplier, maxCap)).  For vol = 10.0,
    multiplier 1.5, cap 0.85 and reference price 100.0 the crash fraction
    is the cap and the price is 100.0 * (1 - 0.85): in binary64 this is
    15.000000000000002 (0x1.e000000000001p+3), one unit in the last place
    above 15.0; in exact arithmetic it is 15. *)
Theorem safe_prices_capped_projection :
  (forall (F : Type) (H : PyFloat F) (config : RiskConfig F)
          (vol cycle_high : F) (name : string) (mult : F),
     isna vol = false ->
     multipliers config !! name = Some mult ->
     compute_safe_prices config vol cycle_high !! price_key name
     = Some (Some (fmul cycle_high
                     (fsub (of_Z 1)
                        (py_min (fmul vol mult)
                           (get config max_crash_cap (lit 0.85))))))) /\
  py_min (fmul (lit 10) (lit 1.5)) (lit 0.85) = (lit 0.85 : float) /\
  compute_safe_prices (F := float) mock_config (lit 10) (lit 100)
    !! "Half Kelly Price"
  = Some (Some (fmul (lit 100) (fsub (of_Z 1) (lit 0.85)))) /\
  fmul (lit 100) (fsub (of_Z 1) (lit 0.85)) = 0x1.e000000000001p+3%float /\
  exists q : Q,
    compute_safe_prices (F := xreal) mock_config (lit 10) (lit 100)
      !! "Half Kelly Price" = Some (Some (XFin q)) /\ (q == 15)%Q.
Proof.
  split_and!.
  - intros F H config vol cycle_high name mult E Hm.
    by apply compute_safe_prices_lookup.
  - reflexivity.
  - reflexivity.
  - reflexivity.
  - eexists. split; [reflexivity | reflexivity].
Qed.

(** ** Exact arithmetic: comparisons *)

Lemma Qlt_bool_true (a b : Q) : Qlt_bool a b = true <-> (a < b)%Q.
Proof.
  unfold Qlt_bool. rewrite negb_true_iff. split.
  - intros E. apply Qnot_le_lt. intros Hle.
    apply Qle_bool_iff in Hle. congruence.
  - intros Hlt. destruct (Qle_bool b a) eqn:E; [|done].
    apply Qle_bool_iff in E. lra.
Qed.

Lemma Qlt_bool_false (a b : Q) : Qlt_bool a b = false <-> (b <= a)%Q.
Proof.
  unfold Qlt_bool. rewrite negb_false_iff. apply Qle_bool_iff.
Qed.

(** C4, as stated, fails on the floats of the program: with the
    multiplier 1.5 and the cap 0.85, for the volatility 10.0 and the
    reference price 5e-324 (0x1p-1074, the least positive float) the
    product referencePrice * (1 - 0.85) underflows, and the price that
    comes out is 0.0, which is not strictly positive. *)
Lemma safe_price_underflows_to_zero :
  isna (lit 10 : float) = false /\
  fle (of_Z 0) (lit 10 : float) = true /\
  flt (of_Z 0) 0x1p-1074%float = true /\
  multipliers (F := float) mock_config !! "Half Kelly" = Some (lit 1.5) /\
  flt (of_Z 0) (lit 1.5 : float) = true /\
  get (F := float) mock_config max_crash_cap (lit 0.85) = lit 0.85 /\
  flt (of_Z 0) (lit 0.85 : float) = true /\
  flt (lit 0.85 : float) (of_Z 1) = true /\
  compute_safe_prices (F := float) mock_config (lit 10) 0x1p-1074%float
    !! "Half Kelly Price" = Some (Some 0%float) /\
  flt (of_Z 0) 0%float = false.
Proof. split_and!; vm_compute; reflexivity. Qed.

(** C4, amended.  In exact arithmetic, for a defined non-negative
    volatility, a positive reference price, positive multipliers and a cap
    strictly between 0 and 1, every entry of the projector's output is a
    defined price, at least referencePrice * (1 - maxCap), hence strictly
    positive, and at most the reference price.  (On the floats of the
    program the product may underflow to 0.0 for a reference price near
    the least positive float, so the strict bound is one of exact
    arithmetic only.) *)
Theorem safe_prices_bounded (config : RiskConfig xreal) (v h c : Q) :
  (0 <= v)%Q -> (0 < h)%Q -> (0 < c)%Q -> (c < 1)%Q ->
  get config max_crash_cap (lit 0.85) = XFin c ->
  (forall name mult, multipliers config !! name = Some mult ->
     exists m, mult = XFin m /\ (0 < m)%Q) ->
  forall key p,
    compute_safe_prices config (XFin v) (XFin h) !! key = Some p ->
    exists q, p = Some (XFin q) /\
              (h * (1 - c) <= q)%Q /\ (q <= h)%Q /\ (0 < q)%Q.
Proof.
  intros Hv Hh Hc0 Hc1 Hcap Hm key p Hk.
  rewrite compute_safe_prices_defined_eq in Hk by done.
  apply (keyed_loop_inv price_key) in Hk as (name & mult & _ & Hmult & ->).
  destruct (Hm _ _ Hmult) as (m & -> & Hm0).
  unfold projected, max_cap, py_min. rewrite Hcap. cbn.
  assert (0 <= v * m)%Q by nra.
  destruct (Qlt_bool c (v * m)) eqn:E.
  - eexists. split; [reflexivity |]. unfold inject_Z. nra.
  - apply Qlt_bool_false in E.
    eexists. split; [reflexivity |]. unfold inject_Z. nra.
Qed.

Lemma safe_prices_bounded_witness :
  exists q, compute_safe_prices (F := xreal) mock_config (lit 0.4) (lit 100)
              !! "Half Kelly Price" = Some (Some (XFin q)) /\
            (100 * (1 - 0.85) <= q)%Q /\ (q <= 100)%Q /\ (0 < q)%Q.
Proof.
  destruct (safe_prices_bounded mock_config 0.4 100 0.85)
    with (key := "Half Kelly Price")
         (p := Some (XFin (100 * (inject_Z 1 - 0.4 * 1.5))))
    as (q & E & B); [lra | lra | lra | lra | reflexivity | | reflexivity |].
  - intros name mult Hm. cbn in Hm.
    apply lookup_singleton_Some in Hm as [_ <-].
    exists 1.5%Q. split; [reflexivity | lra].
  - exists q. split; [by rewrite <- E | exact B].
Defined.

(** ** Laws of the comparisons

    What the claims about the orchestrator need of the floats: nan is
    recognised, and the order is irreflexive, reflexive on non-nan values
    and [<] implies [<=].  Both instances satisfy them. *)

Class FloatOrder (F : Type) `{PyFloat F} : Prop := {
  isna_nan : isna nan = true;
  flt_irrefl : forall x, flt x x = false;
  flt_fle : forall x y, flt x y = true -> fle x y = true;
  fle_refl : forall x, isna x = false -> fle x x = true
}.

#[export] Instance exact_order : FloatOrder xreal.
Proof.
  split.
  - reflexivity.
  - intros [|q]; cbn; [done |]. apply Qlt_bool_false. lra.
  - intros [|a] [|b]; cbn; try done.
    rewrite Qlt_bool_true, Qle_bool_iff. lra.
  - intros [|q]; cbn; [done |]. intros _. apply Qle_bool_iff. lra.
Qed.

Lemma SFcompare_diag (s : spec_float) :
  SFcompare s s = None \/ SFcompare s s = Some Eq.
Proof.
  destruct s as [b | b | | b m e]; cbn; auto.
  - right. by destruct b.
  - right. rewrite Z.compare_refl, Pos.compare_cont_refl. by destruct b.
Qed.

#[export] Instance binary64_order : FloatOrder float.
Proof.
  split.
  - reflexivity.
  - intros x. cbn. rewrite ltb_spec. unfold SFltb.
    by destruct (SFcompare_diag (Prim2SF x)) as [-> | ->].
  - intros x y. cbn. rewrite ltb_spec, leb_spec. unfold SFltb, SFleb.
    by destruct (SFcompare (Prim2SF x) (Prim2SF y)) as [[]|].
  - intros x. cbn. unfold is_nan. rewrite negb_false_iff.
    rewrite FloatAxioms.eqb_spec, leb_spec. unfold SFeqb, SFleb.
    by destruct (SFcompare (Prim2SF x) (Prim2SF x)) as [[]|].
Qed.

(** ** The error monad *)

Lemma bind_Ok {A B} (m : pyresult A) (k : A -> pyresult B) (b : B) :
  m ≫= k = Ok b <-> exists a, m = Ok a /\ k a = Ok b.
Proof.
  destruct m as [a | e]; cbn; split.
  - intros E. by exists a.
  - by intros (a' & [= <-] & E).
  - done.
  - by intros (a' & [=] & _).
Qed.

Ltac inv_bind H :=
  let a := fresh "a" in
  let E := fresh "E" in
  apply bind_Ok in H as (a & E & H).


(** ** Claims about the orchestrator *)

Section Orchestrator.
Context {F : Type} `{PyFloat F} `{!FloatOrder F}.
Variable config : RiskConfig F.

Lemma py_max_ge (raw_vol floor : F) :
  isna raw_vol = false -> fle raw_vol (py_max raw_vol floor) = true.
Proof.
  intros E. unfold py_max. destruct (flt raw_vol floor) eqn:L.
  - by apply flt_fle.
  - by apply fle_refl.
Qed.

Lemma py_max_gt (raw_vol floor : F) :
  flt raw_vol (py_max raw_vol floor) = flt raw_vol floor.
Proof.
  unfold py_max. destruct (flt raw_vol floor) eqn:L; [done |].
  apply flt_irrefl.
Qed.

Lemma current_risk_Ok (ticker : string) (prices vol_series : Series F)
    (annual_days : Z) (current_price raw_vol : F) (row : CurrentRow F) :
  current_risk config ticker prices vol_series annual_days current_price
    raw_vol = Ok row ->
  calculate_dynamic_floor config vol_series annual_days
  = Ok (Dynamic_Floor row) /\
  Raw_Vol row = raw_vol /\
  safe_prices row
  = compute_safe_prices config (py_max raw_vol (Dynamic_Floor row))
      (Cycle_High row) /\
  Floor_Active row
  = (if flt raw_vol (Dynamic_Floor row) then "YES" else "No").
Proof.
  unfold current_risk. intros Hrow.
  inv_bind Hrow. inv_bind Hrow. inv_bind Hrow.
  injection Hrow as <-. cbn. by rewrite py_max_gt.
Qed.

Lemma survival_check_absent (hist_limits : gmap string (option F))
    (current_price : F) :
  hist_limits !! "Half Kelly Price" ≫= id = None ->
  survival_check hist_limits current_price = Ok Insufficient_History.
Proof. unfold survival_check. by intros ->. Qed.

Lemma survival_check_nan (hist_limits : gmap string (option F))
    (current_price hk : F) :
  hist_limits !! "Half Kelly Price" = Some (Some hk) ->
  isna hk = true ->
  survival_check hist_limits current_price = Ok Insufficient_History.
Proof. unfold survival_check. intros -> E. cbn. by rewrite E. Qed.

Lemma leverage_drift_Ok (ticker : string) (prices vol_series : Series F)
    (current_price : F) (row : DriftRow F) :
  leverage_drift config ticker prices vol_series current_price = Ok row ->
  lookup_ath_vol vol_series (ATH_Date row) = Ok (ATH_Vol row) /\
  survival_check (compute_safe_prices config (ATH_Vol row) (ATH_Price row))
    current_price = Ok (SURVIVAL_CHECK row).
Proof.
  unfold leverage_drift. intros Hrow.
  inv_bind Hrow. inv_bind Hrow. inv_bind Hrow. inv_bind Hrow.
  by injection Hrow as <-.
Qed.

End Orchestrator.

Lemma process_Some {F : Type} `{PyFloat F} `{!NumpyMath F}
    (config : RiskConfig F) (ticker : string) (prices : Series F)
    (row_curr : CurrentRow F) (row_drift : DriftRow F) :
  process config ticker prices = Ok (Some (row_curr, row_drift)) ->
  exists vol_series current_price raw_vol,
    calculate_volatility config prices (get_annual_days config ticker)
    = Ok vol_series /\
    pd.iloc_last prices = Ok current_price /\
    pd.iloc_last vol_series = Ok raw_vol /\
    isna raw_vol = false /\
    current_risk config ticker prices vol_series
      (get_annual_days config ticker) current_price raw_vol = Ok row_curr /\
    leverage_drift config ticker prices vol_series current_price
    = Ok row_drift.
Proof.
  unfold process. intros Hp.
  apply bind_Ok in Hp as (vol_series & Ev & Hp).
  apply bind_Ok in Hp as (current_price & Ec & Hp).
  apply bind_Ok in Hp as (raw_vol & Er & Hp).
  destruct (isna raw_vol) eqn:En; [discriminate |].
  apply bind_Ok in Hp as (rc & Erc & Hp).
  apply bind_Ok in Hp as (rd & Erd & Hp).
  injection Hp as <- <-.
  by exists vol_series, current_price, raw_vol.
Qed.

(** The ten closing prices of tests/test_risk_engine.py. *)
Definition short_history {F : Type} `{PyFloat F} : Series F :=
  daily (of_Z <$> [100; 101; 102; 103; 104; 105; 106; 107; 108; 109]).

(** C5. In every Current Risk row the orchestrator emits, the raw
    volatility is defined, the safe prices are projected at
    max(rawVol, floor), which is at least rawVol, and the floor-active
    flag reads "YES" exactly when floor > rawVol. *)
Theorem effective_vol_floored {F : Type} `{PyFloat F} `{!NumpyMath F}
    `{!FloatOrder F} (config : RiskConfig F) (ticker : string)
    (prices : Series F) (row_curr : CurrentRow F) (row_drift : DriftRow F) :
  process config ticker prices = Ok (Some (row_curr, row_drift)) ->
  let raw_vol := Raw_Vol row_curr in
  let floor := Dynamic_Floor row_curr in
  let effective_vol := py_max raw_vol floor in
  isna raw_vol = false /\
  safe_prices row_curr
  = compute_safe_prices config effective_vol (Cycle_High row_curr) /\
  fle raw_vol effective_vol = true /\
  (Floor_Active row_curr = "YES" <-> flt raw_vol floor = true).
Proof.
  intros Hp.
  apply process_Some in Hp as (vs & cur & raw & _ & _ & _ & En & Hc & _).
  apply current_risk_Ok in Hc as (_ & Hraw & Hsafe & Hflag).
  cbn zeta. rewrite Hraw. split_and!; [done | done | by apply py_max_ge |].
  rewrite Hflag. by destruct (flt raw (Dynamic_Floor row_curr)).
Qed.

Lemma effective_vol_floored_witness :
  exists row_curr row_drift,
    process (H0 := numpy_approx64) run_config "BTC-USD" short_history
    = Ok (Some (row_curr, row_drift)) /\
    Floor_Active row_curr = "YES" /\
    flt (Raw_Vol row_curr) (Dynamic_Floor row_curr) = true.
Proof.
  eexists _, _. split; [vm_compute; reflexivity |].
  lazymatch goal with
  | |- Floor_Active ?rc = _ /\ _ =>
      assert (W : exists rd,
                process (F := float) (H0 := numpy_approx64) run_config
                  "BTC-USD" short_history = Ok (Some (rc, rd)))
        by (eexists; vm_compute; reflexivity)
  end.
  destruct W as [rd W].
  apply (effective_vol_floored (F := float)) in W as (_ & _ & _ & Hflag).
  split; [apply Hflag |]; reflexivity.
Defined.

(** C6. In exact arithmetic, with a defined and positive historical
    "Half Kelly" safe price: a current price equal to it (or below it) is
    "liquidated", the comparison being [<=]; a current price strictly
    above it is "safe" with margin (currentPrice - safePrice) /
    currentPrice, strictly positive.  With an undefined historical safe
    price (None or nan) the verdict is "insufficient history". *)
Theorem survival_verdict_boundary (hist_limits : gmap string (option xreal))
    (current_price : Q) :
  (forall hk : Q,
     hist_limits !! "Half Kelly Price" = Some (Some (XFin hk)) ->
     (0 < hk)%Q ->
     ((current_price == hk)%Q ->
        survival_check hist_limits (XFin current_price) = Ok LIQUIDATED) /\
     ((current_price <= hk)%Q ->
        survival_check hist_limits (XFin current_price) = Ok LIQUIDATED) /\
     ((hk < current_price)%Q ->
        exists margin : Q,
          survival_check hist_limits (XFin current_price)
          = Ok (SAFE (XFin margin)) /\
          (margin == (current_price - hk) / current_price)%Q /\
          (0 < margin)%Q)) /\
  (forall hk : option xreal,
     hist_limits !! "Half Kelly Price" = Some hk ->
     hk = None \/ hk = Some XNaN ->
     survival_check hist_limits (XFin current_price)
     = Ok Insufficient_History).
Proof.
  split.
  - intros hk Hk Hpos.
    assert (Hle : (current_price <= hk)%Q ->
              survival_check hist_limits (XFin current_price) = Ok LIQUIDATED).
    { intros Hle. unfold survival_check. rewrite Hk. cbn.
      apply Qle_bool_iff in Hle. by rewrite Hle. }
    split_and!; [intros Heq; apply Hle; lra | exact Hle |].
    intros Hlt. unfold survival_check, truediv. rewrite Hk. cbn.
    destruct (Qle_bool current_price hk) eqn:Hle'.
    { apply Qle_bool_iff in Hle'. lra. }
    change (inject_Z 0) with 0%Q.
    destruct (Qeq_bool current_price 0) eqn:Hz.
    { apply Qeq_bool_iff in Hz. lra. }
    cbn. eexists. split; [reflexivity |]. split; [reflexivity |].
    apply Qlt_shift_div_l; lra.
  - intros hk Hk [-> | ->].
    + apply (survival_check_absent (F := xreal)). by rewrite Hk.
    + by apply (survival_check_nan (F := xreal)) with (hk := XNaN).
Qed.

Lemma survival_verdict_boundary_witness :
  survival_check (F := xreal) {[ "Half Kelly Price" := Some (XFin 40%Q) ]}
    (XFin 40%Q) = Ok LIQUIDATED /\
  exists margin : Q,
    survival_check (F := xreal) {[ "Half Kelly Price" := Some (XFin 40%Q) ]}
      (XFin 40.01%Q) = Ok (SAFE (XFin margin)) /\ (0 < margin)%Q.
Proof.
  split.
  - apply (proj1 (survival_verdict_boundary
                    {[ "Half Kelly Price" := Some (XFin 40%Q) ]} 40%Q) 40%Q);
      [reflexivity | lra | lra].
  - destruct (proj1 (survival_verdict_boundary
                       {[ "Half Kelly Price" := Some (XFin 40%Q) ]} 40.01%Q) 40%Q)
      as (_ & _ & Hsafe); [reflexivity | lra |].
    destruct Hsafe as (margin & E & _ & Hpos); [lra |].
    by exists margin.
Defined.

(** C10. The survival check reads the key "Half Kelly Price": when no
    multiplier is named "Half Kelly", it answers "insufficient history"
    for every volatility, reference price and current price, and so does
    every Leverage Drift row, whatever the price history. *)
Theorem survival_check_needs_half_kelly {F : Type} `{PyFloat F}
    (config : RiskConfig F) :
  multipliers config !! "Half Kelly" = None ->
  (forall vol cycle_high current_price : F,
     survival_check (compute_safe_prices config vol cycle_high) current_price
     = Ok Insufficient_History) /\
  (forall (ticker : string) (prices vol_series : Series F)
          (current_price : F) (row : DriftRow F),
     leverage_drift config ticker prices vol_series current_price = Ok row ->
     SURVIVAL_CHECK row = Insufficient_History).
Proof.
  intros Hm.
  assert (Hs : forall vol cycle_high current_price : F,
            survival_check (compute_safe_prices config vol cycle_high)
              current_price = Ok Insufficient_History).
  { intros vol cycle_high current_price. apply survival_check_absent.
    change "Half Kelly Price" with (price_key "Half Kelly").
    by rewrite compute_safe_prices_absent. }
  split; [exact Hs |].
  intros ticker prices vol_series current_price row Hrow.
  apply leverage_drift_Ok in Hrow as [_ Hrow].
  rewrite Hs in Hrow. by injection Hrow as <-.
Qed.

(** A configuration whose only multiplier is named "Full Kelly". *)
Definition full_kelly_config {F : Type} `{PyFloat F} : RiskConfig F := {|
  assets := ["BTC-USD"];
  settings := settings run_config;
  multipliers := {[ "Full Kelly" := lit 2 ]}
|}.

Lemma survival_check_needs_half_kelly_witness :
  exists row : DriftRow float,
    leverage_drift full_kelly_config "BTC-USD"
      (daily [lit 100; lit 120; lit 110])
      (daily [lit 0.3; lit 0.3; lit 0.4]) (lit 110) = Ok row /\
    SURVIVAL_CHECK row = Insufficient_History.
Proof.
  destruct (leverage_drift (F := float) full_kelly_config "BTC-USD"
              (daily [lit 100; lit 120; lit 110])
              (daily [lit 0.3; lit 0.3; lit 0.4]) (lit 110))
    as [row | e] eqn:E; [| vm_compute in E; discriminate E].
  exists row. split; [reflexivity |].
  apply (proj2 (survival_check_needs_half_kelly (F := float)
                  full_kelly_config eq_refl) _ _ _ _ _ E).
Defined.

(** ** The Volatility Estimator *)

Section Estimator.
Context {F : Type} `{PyFloat F} `{!NumpyMath F}.
Variable config : RiskConfig F.

(** The logarithmic returns of a price column: entry t is
    ln(price[t] / price[t-1]), and entry 0 is ln(price[0] / nan). *)
Definition log_returns (prices : list F) : list F :=
  zip_with (fun p prev => np_log (fdiv p prev)) prices (nan :: prices).

(** The returns the rolling window sees at row t that are not nan. *)
Definition observations (window : Z) (prices : list F) (t : nat) : list F :=
  pd.dropna (pd.window_at (Z.to_nat window) t (log_returns prices)).

(** The column the rolling standard deviation returns for a column of
    values. *)
Definition rolling_values (window : Z) (values : list F) : list F :=
  pd.zsqrt <$> pd.roll_var (pd.prep_values values) (Z.to_nat window)
                 min_periods.

(** Row t of the estimate. *)
Definition volatility_at (window annual_days : Z) (prices : list F) (t : nat)
  : F :=
  fmul (default nan (rolling_values window (log_returns prices) !! t))
       (np_sqrt (of_Z annual_days)).

Lemma length_roll_var_from (values : list F) (w : nat) (minp : Z)
    (st : pd.var_state) (i n : nat) :
  length (pd.roll_var_from values w minp st i n) = n.
Proof.
  revert st i. induction n as [|n IH]; intros st i; cbn; [done |].
  by rewrite IH.
Qed.

Lemma length_rolling_values (window : Z) (values : list F) :
  length (rolling_values window values) = length values.
Proof.
  unfold rolling_values, pd.roll_var, pd.prep_values.
  by rewrite length_fmap, length_roll_var_from, length_fmap.
Qed.

Lemma length_log_returns (prices : list F) :
  length (log_returns prices) = length prices.
Proof. unfold log_returns. rewrite length_zip_with. cbn. lia. Qed.

Lemma div_shift (s : Series F) (k : list F) :
  pd.div s (zip (s.*1) k)
  = zip_with (fun e prev => (e.1, fdiv e.2 prev)) s k.
Proof.
  unfold pd.div. revert k.
  induction s as [|e s IH]; intros [|x k]; cbn; [done .. |].
  f_equal. apply IH.
Qed.

Lemma log_ret_values (prices : Series F) :
  (pd.map_values np_log (pd.div prices (pd.shift prices))).*2
  = log_returns (prices.*2).
Proof.
  unfold pd.shift, log_returns, pd.map_values. rewrite div_shift.
  generalize (nan :: prices.*2). intros k. revert k.
  induction prices as [|e s IH]; intros [|x k]; cbn; [done .. |].
  f_equal. apply IH.
Qed.

Lemma log_ret_lookup (prices : Series F) (t : nat) :
  fst <$> pd.map_values np_log (pd.div prices (pd.shift prices)) !! t
  = fst <$> prices !! t.
Proof.
  unfold pd.shift, pd.map_values. rewrite div_shift.
  assert (Hlen : (length (prices.*2) < length (nan :: prices.*2))%nat)
    by (cbn; lia).
  revert Hlen. generalize (nan :: prices.*2). intros k. revert k t.
  induction prices as [|e s IH]; intros [|x k] t Hlen; cbn in *;
    [done | done | lia |].
  destruct t as [|t]; cbn; [done |]. apply IH. lia.
Qed.

Lemma calculate_volatility_eq (prices : Series F) (annual_days : Z) :
  let window := get config volatility_window 30 in
  calculate_volatility config prices annual_days
  = if (window <? 0) || (window <? min_periods) then Raise ValueError
    else Ok (imap (fun t e =>
                     (e.1, volatility_at window annual_days (prices.*2) t))
               prices).
Proof.
  cbn zeta. unfold calculate_volatility, pd.rolling_std.
  change (min_periods <? 0) with false. cbn [orb].
  destruct (_ || _); [done |]. cbn. f_equal.
  apply list_eq. intros t.
  unfold pd.map_values at 1, volatility_at.
  rewrite list_lookup_fmap, lookup_zip_with, !list_lookup_imap.
  rewrite log_ret_values. fold (rolling_values
    (get config volatility_window 30) (log_returns (prices.*2))).
  pose proof (log_ret_lookup prices t) as Hfst.
  rewrite list_lookup_fmap.
  pose proof (length_rolling_values (get config volatility_window 30)
                (log_returns (prices.*2))) as Hlen.
  rewrite length_log_returns, length_fmap in Hlen.
  destruct (prices !! t) as [e|] eqn:Ep; cbn in Hfst |- *.
  - rewrite Hfst.
    destruct (lookup_lt_is_Some_2
                (rolling_values (get config volatility_window 30)
                   (log_returns (prices.*2))) t) as [v ->]; [| done].
    rewrite Hlen. by apply lookup_lt_Some in Ep.
  - by rewrite Hfst.
Qed.

Lemma calculate_volatility_length (prices vol_series : Series F)
    (annual_days : Z) :
  calculate_volatility config prices annual_days = Ok vol_series ->
  length vol_series = length prices.
Proof.
  rewrite calculate_volatility_eq. destruct (_ || _); [done |].
  intros [= <-]. apply length_imap.
Qed.

End Estimator.

(** On binary64 the infinities are the values [pd.isinf] recognises among
    these, and the rolling aggregation sees them as missing values. *)
Lemma prep_values_infinity :
  pd.isinf PrimFloat.infinity = true /\
  pd.isinf PrimFloat.neg_infinity = true /\
  pd.isinf (lit 1 : float) = false /\
  pd.isinf (nan : float) = false /\
  pd.prep_values [lit 1; PrimFloat.infinity; PrimFloat.neg_infinity; nan]
  = [lit 1; nan; nan; nan : float].
Proof. split_and!; vm_compute; reflexivity. Qed.

(** ** Skipping an asset *)

Lemma iloc_last_Ok {F : Type} `{PyFloat F} (s : Series F) (v : F) :
  pd.iloc_last s = Ok v -> s <> [].
Proof. unfold pd.iloc_last. by destruct s. Qed.

Lemma iloc_last_nonempty {F : Type} `{PyFloat F} (s : Series F) :
  s <> [] -> exists v, pd.iloc_last s = Ok v.
Proof.
  unfold pd.iloc_last. intros Hs.
  destruct (last s) as [e|] eqn:E; [by exists e.2 |].
  by apply last_None in E.
Qed.

(** Three closing prices: too few for any volatility value. *)
Definition new_listing {F : Type} `{PyFloat F} : Series F :=
  daily (of_Z <$> [100; 101; 102]).

(** C9. When the last entry of an asset's volatility series is undefined,
    the loop body ends in "continue": the asset adds no row to either
    result list and the loop goes on with the remaining assets, exactly as
    if the asset had not been listed. *)
Theorem insufficient_data_skipped {F : Type} `{PyFloat F} `{!NumpyMath F}
    (config : RiskConfig F) (fetch_history : string -> option (Series F))
    (ticker : string) (rest : list string) (prices vol_series : Series F)
    (raw_vol : F) (current_results : list (CurrentRow F))
    (drift_results : list (DriftRow F)) :
  fetch_history ticker = Some prices ->
  calculate_volatility config prices (get_annual_days config ticker)
  = Ok vol_series ->
  pd.iloc_last vol_series = Ok raw_vol ->
  isna raw_vol = true ->
  process config ticker prices = Ok None /\
  main_loop config fetch_history (ticker :: rest) current_results
    drift_results
  = main_loop config fetch_history rest current_results drift_results.
Proof.
  intros Hfetch Hvol Hlast Hnan.
  assert (Hp : process config ticker prices = Ok None).
  { unfold process. rewrite Hvol. cbn.
    destruct (iloc_last_nonempty prices) as [current_price ->].
    - apply iloc_last_Ok in Hlast.
      apply calculate_volatility_length in Hvol.
      intros ->. by destruct vol_series.
    - cbn. rewrite Hlast. cbn. by rewrite Hnan. }
  split; [exact Hp |].
  cbn. by rewrite Hfetch, Hp.
Qed.

Lemma insufficient_data_skipped_witness :
  process (H0 := numpy_approx) run_config "NEW" new_listing = Ok None /\
  main_loop (H0 := numpy_approx) run_config (fun _ => Some new_listing)
    ["NEW"; "BTC-USD"] [] []
  = main_loop (H0 := numpy_approx) run_config (fun _ => Some new_listing)
      ["BTC-USD"] [] [].
Proof.
  apply (insufficient_data_skipped (NumpyMath0 := numpy_approx) run_config
           (fun _ => Some new_listing) "NEW" ["BTC-USD"] new_listing
           (daily [nan; nan; nan]) nan [] []);
    reflexivity.
Defined.

(** ** Looking up the volatility at the date of the high *)

Section AsOf.
Context {F : Type} `{PyFloat F} `{!FloatOrder F}.

Lemma loc_found (s : Series F) (d : Z) (v : F) :
  NoDup (s.*1) -> (d, v) ∈ s -> pd.loc s d = Ok v.
Proof.
  intros Hnd Hin.
  assert (E : filter (fun e : Z * F => e.1 = d) s = [(d, v)]).
  { induction s as [|e s IH]; [by apply elem_of_nil in Hin |].
    cbn in Hnd. apply NoDup_cons in Hnd as [Hfresh Hnd].
    apply elem_of_cons in Hin as [<- | Hin].
    - rewrite filter_cons_True by done. f_equal.
      destruct (filter (fun e : Z * F => e.1 = d) s) as [|e' l] eqn:E;
        [done |].
      assert (He' : e' ∈ filter (fun e : Z * F => e.1 = d) s)
        by (rewrite E; left).
      apply list_elem_of_filter in He' as [Hd He'].
      destruct Hfresh. cbn. rewrite <- Hd. by apply list_elem_of_fmap_2.
    - rewrite filter_cons_False; [by apply IH |].
      intros Hd. destruct Hfresh. rewrite Hd.
      by apply (list_elem_of_fmap_2 fst) in Hin. }
  unfold pd.loc. by rewrite E.
Qed.







End AsOf.




(** A falling market: the high is the first close, where no volatility
    value exists yet. *)
Definition falling_prices {F : Type} `{PyFloat F} : Series F :=
  daily (of_Z <$> [120; 110; 100]).



(** ** The Volatility Estimator in exact arithmetic *)

Lemma filter_sublist_length {A} (P : A -> Prop) `{!forall x, Decision (P x)}
    (l1 l2 : list A) :
  l1 `sublist_of` l2 -> (length (filter P l1) <= length (filter P l2))%nat.
Proof.
  induction 1 as [| x l1 l2 _ IH | x l1 l2 _ IH].
  - done.
  - rewrite !filter_cons. destruct (decide (P x)); cbn; lia.
  - rewrite filter_cons. destruct (decide (P x)); cbn; lia.
Qed.

Lemma window_at_sublist {A} (w t : nat) (xs : list A) :
  pd.window_at w t xs `sublist_of` xs.
Proof.
  unfold pd.window_at. etrans; [apply sublist_drop | apply sublist_take].
Qed.

Lemma filter_Forall {A} (P : A -> Prop) `{!forall x, Decision (P x)}
    (l : list A) :
  Forall P l -> filter P l = l.
Proof.
  induction 1 as [| x l Hx _ IH]; [done |].
  by rewrite filter_cons_True, IH.
Qed.

Lemma defined_values (xs : list xreal) :
  Forall pd.notna xs -> exists qs, xs = XFin <$> qs.
Proof.
  induction 1 as [| x xs Hx _ [qs ->]]; [by exists [] |].
  destruct x as [|q]; [done |]. by exists (q :: qs).
Qed.

Section EstimatorExact.
Variables ln sqrt : Q -> Q.
#[local] Instance exact_numpy : NumpyMath xreal := xnumpy ln sqrt.

(** In exact arithmetic there are no infinities to turn into nan. *)
Lemma prep_values_exact (xs : list xreal) : pd.prep_values xs = xs.
Proof.
  unfold pd.prep_values.
  induction xs as [| [|q] xs IH]; cbn; [done | by f_equal ..].
Qed.

Lemma inject_Z_nonzero (n : Z) : n <> 0 -> Qeq_bool (inject_Z n) 0 = false.
Proof.
  intros Hn. destruct (Qeq_bool _ _) eqn:E; [| done].
  apply Qeq_bool_iff in E. unfold Qeq in E. cbn in E. lia.
Qed.

(** The number of values of a window that are not nan. *)
Definition count_valid (xs : list xreal) : Z :=
  Z.of_nat (length (pd.dropna xs)).

Lemma count_valid_app (xs ys : list xreal) :
  count_valid (xs ++ ys) = count_valid xs + count_valid ys.
Proof.
  unfold count_valid, pd.dropna. rewrite filter_app, length_app. lia.
Qed.

(** The running mean, sum of squares and compensations are numbers. *)
Definition fin_state (st : pd.var_state) : Prop :=
  pd.notna (pd.mean_x st) /\ pd.notna (pd.ssqdm_x st) /\
  pd.notna (pd.compensation_add st) /\ pd.notna (pd.compensation_remove st).

Lemma var_reset_fin (first : xreal) : fin_state (pd.var_reset first).
Proof. by repeat split. Qed.

Lemma add_var_fin (st : pd.var_state) (v : xreal) :
  fin_state st -> fin_state (pd.add_var st v).
Proof.
  destruct st as [n [|m] [|s] [|ca] [|cr] same prev];
    intros (? & ? & ? & ?); try done.
  unfold pd.add_var. destruct v as [|q]; [done |]. cbn.
  destruct (n + 1 =? 0) eqn:E; [by repeat split |].
  apply Z.eqb_neq in E. unfold xdiv.
  rewrite (inject_Z_nonzero (n + 1) E). by repeat split.
Qed.

Lemma remove_var_fin (st : pd.var_state) (v : xreal) :
  fin_state st -> fin_state (pd.remove_var st v).
Proof.
  destruct st as [n [|m] [|s] [|ca] [|cr] same prev];
    intros (? & ? & ? & ?); try done.
  unfold pd.remove_var. destruct v as [|q]; [done |]. cbn.
  destruct (n - 1 =? 0) eqn:E; [by repeat split |].
  apply Z.eqb_neq in E. cbn. unfold xdiv.
  rewrite (inject_Z_nonzero (n - 1) E). by repeat split.
Qed.

Lemma add_var_nobs (st : pd.var_state) (v : xreal) :
  pd.nobs (pd.add_var st v) = pd.nobs st + count_valid [v].
Proof.
  unfold pd.add_var. destruct v as [|q].
  - change (count_valid [XNaN]) with 0. cbn. lia.
  - by change (count_valid [XFin q]) with 1.
Qed.

Lemma remove_var_nobs (st : pd.var_state) (v : xreal) :
  pd.nobs (pd.remove_var st v) = pd.nobs st - count_valid [v].
Proof.
  unfold pd.remove_var. destruct v as [|q].
  - change (count_valid [XNaN]) with 0. cbn. lia.
  - change (count_valid [XFin q]) with 1. cbn. by destruct (_ =? 0).
Qed.

Lemma foldl_add_var (st : pd.var_state) (vs : list xreal) :
  fin_state st ->
  fin_state (foldl pd.add_var st vs) /\
  pd.nobs (foldl pd.add_var st vs) = pd.nobs st + count_valid vs.
Proof.
  revert st. induction vs as [|v vs IH]; intros st Hst.
  - split; [done |]. change (count_valid []) with 0. cbn. lia.
  - destruct (IH (pd.add_var st v) (add_var_fin st v Hst)) as [Hfin Hn].
    split; [done |]. cbn [foldl]. rewrite Hn, add_var_nobs.
    change (v :: vs) with ([v] ++ vs). rewrite count_valid_app. lia.
Qed.

Lemma foldl_remove_var (st : pd.var_state) (vs : list xreal) :
  fin_state st ->
  fin_state (foldl pd.remove_var st vs) /\
  pd.nobs (foldl pd.remove_var st vs) = pd.nobs st - count_valid vs.
Proof.
  revert st. induction vs as [|v vs IH]; intros st Hst.
  - split; [done |]. change (count_valid []) with 0. cbn. lia.
  - destruct (IH (pd.remove_var st v) (remove_var_fin st v Hst))
      as [Hfin Hn].
    split; [done |]. cbn [foldl]. rewrite Hn, remove_var_nobs.
    change (v :: vs) with ([v] ++ vs). rewrite count_valid_app. lia.
Qed.

Lemma drop_take_split {A} (a b c : nat) (l : list A) :
  (a <= b <= c)%nat -> (c <= length l)%nat ->
  drop a (take c l) = drop a (take b l) ++ drop b (take c l).
Proof.
  intros Habc Hc.
  rewrite <- (take_drop b (take c l)) at 1.
  rewrite take_take, Nat.min_l by lia.
  rewrite drop_app_le by (rewrite length_take; lia). done.
Qed.

(** After the loop body at row i the state counts the valid values of
    the window that ends at row i. *)
Lemma roll_var_step_spec (values : list xreal) (w : nat)
    (st : pd.var_state) (i : nat) :
  (i < length values)%nat -> (1 <= w)%nat ->
  (i = 0%nat \/
   (fin_state st /\
    pd.nobs st = count_valid (pd.window_at w (i - 1) values))) ->
  fin_state (pd.roll_var_step values w st i) /\
  pd.nobs (pd.roll_var_step values w st i)
  = count_valid (pd.window_at w i values).
Proof.
  intros Hi Hw Hst. unfold pd.roll_var_step. cbn zeta.
  destruct (Nat.eqb_spec i 0) as [-> | Hi0]; cbn [orb].
  { apply (foldl_add_var _ _ (var_reset_fin _)). }
  destruct (Nat.leb_spec i (i + 1 - w)) as [Hle | Hgt].
  { apply (foldl_add_var _ _ (var_reset_fin _)). }
  destruct Hst as [-> | [Hfin Hn]]; [done |].
  destruct (foldl_remove_var st
              (drop (i - w) (take (i + 1 - w) values)) Hfin)
    as [Hfin1 Hn1].
  destruct (foldl_add_var _ (drop i (take (i + 1) values)) Hfin1)
    as [Hfin2 Hn2].
  split; [done |]. rewrite Hn2, Hn1, Hn. unfold pd.window_at.
  replace (i - 1 + 1 - w)%nat with (i - w)%nat by lia.
  replace (i - 1 + 1)%nat with i by lia.
  rewrite (drop_take_split (i - w) (i + 1 - w) i values) by lia.
  rewrite (drop_take_split (i + 1 - w) i (i + 1) values) by lia.
  rewrite !count_valid_app. lia.
Qed.

Lemma roll_var_from_spec (values : list xreal) (w : nat) (minp : Z)
    (n : nat) :
  forall (st : pd.var_state) (i k : nat) (v : xreal),
  (i + n <= length values)%nat -> (1 <= w)%nat ->
  (i = 0%nat \/
   (fin_state st /\
    pd.nobs st = count_valid (pd.window_at w (i - 1) values))) ->
  pd.roll_var_from values w minp st i n !! k = Some v ->
  exists st', v = pd.calc_var minp st' /\ fin_state st' /\
    pd.nobs st' = count_valid (pd.window_at w (i + k) values).
Proof.
  induction n as [|n IH]; intros st i k v Hlen Hw Hst Hk; [done |].
  destruct (roll_var_step_spec values w st i) as [Hfin Hn];
    [lia | done | done |].
  cbn in Hk. destruct k as [|k]; cbn in Hk.
  - injection Hk as <-. eexists. split; [done |].
    by rewrite Nat.add_0_r.
  - replace (i + S k)%nat with (S i + k)%nat by lia.
    apply (IH (pd.roll_var_step values w st i) (S i) k v);
      [lia | done | | done].
    right. by replace (S i - 1)%nat with i by lia.
Qed.

(** The variance is a number once enough valid values are in the window,
    and its guarded square root is a number then. *)
Lemma zsqrt_calc_var_defined (minp : Z) (st : pd.var_state) :
  fin_state st -> 2 <= minp ->
  isna (pd.zsqrt (pd.calc_var minp st)) = false <-> minp <= pd.nobs st.
Proof.
  destruct st as [n [|m] [|s] [|ca] [|cr] same prev];
    intros (? & ? & ? & ?) Hminp; try done.
  unfold pd.calc_var. cbn [pd.nobs pd.ssqdm_x pd.num_consecutive_same_value].
  destruct (Z.leb_spec minp n) as [Hle | Hlt]; cbn [andb].
  - destruct (Z.ltb_spec 1 n) as [_ | ?]; [| lia].
    split; [done | intros _].
    destruct (_ || _).
    + unfold pd.zsqrt. cbn. by destruct (Qlt_bool _ _).
    + cbn. unfold xdiv.
      assert (Hd : Qeq_bool (inject_Z n - inject_Z 1) 0 = false).
      { destruct (Qeq_bool _ _) eqn:E; [| done].
        apply Qeq_bool_iff in E.
        unfold Qeq, Qminus, Qplus, Qopp, inject_Z in E. cbn in E. lia. }
      rewrite Hd. unfold pd.zsqrt. cbn.
      destruct (Qlt_bool (s / _) _) eqn:E; [done |]. done.
  - split; [done | lia].
Qed.

Lemma zsqrt_calc_var_nan (minp : Z) (st : pd.var_state) :
  pd.nobs st < minp -> pd.zsqrt (pd.calc_var minp st) = XNaN.
Proof.
  intros Hlt. unfold pd.calc_var.
  destruct (Z.leb_spec minp (pd.nobs st)); [lia | done].
Qed.

(** Row t of the rolling standard deviation, in terms of the state the
    loop holds there. *)
Lemma rolling_values_lookup (window : Z) (values : list xreal) (t : nat) :
  1 <= window -> (t < length values)%nat ->
  exists st, rolling_values window values !! t
             = Some (pd.zsqrt (pd.calc_var min_periods st)) /\
    fin_state st /\
    pd.nobs st
    = count_valid (pd.window_at (Z.to_nat window) t values).
Proof.
  intros Hw Ht. unfold rolling_values, pd.roll_var.
  rewrite prep_values_exact, list_lookup_fmap.
  destruct (lookup_lt_is_Some_2
              (pd.roll_var_from values (Z.to_nat window)
                 (Z.max min_periods 1) (pd.var_reset nan) 0 (length values))
              t) as [v Hv].
  { by rewrite length_roll_var_from. }
  rewrite Hv.
  destruct (roll_var_from_spec values (Z.to_nat window)
              (Z.max min_periods 1) (length values) (pd.var_reset nan)
              0%nat t v) as (st & -> & Hfin & Hn);
    [done | lia | by left | done |].
  by exists st.
Qed.

Lemma log_returns_first (p : xreal) (ps : list xreal) :
  exists rest, log_returns (p :: ps) = XNaN :: rest /\
               length rest = length ps.
Proof.
  unfold log_returns. cbn [zip_with].
  exists (zip_with (fun p prev => np_log (fdiv p prev)) ps (p :: ps)).
  split; [by destruct p |].
  rewrite length_zip_with. cbn. lia.
Qed.

Lemma observations_few (window : Z) (prices : list xreal) (t : nat) :
  (length (observations window prices t) <= length prices - 1)%nat.
Proof.
  unfold observations, pd.dropna.
  etrans; [apply filter_sublist_length, window_at_sublist |].
  destruct prices as [|p ps]; [done |].
  destruct (log_returns_first p ps) as (rest & -> & Hlen).
  rewrite filter_cons_False by done.
  etrans; [apply length_filter |]. cbn. lia.
Qed.

Lemma log_returns_defined (prices : list xreal) (j : nat) :
  Forall (fun p => exists q, p = XFin q /\ (0 < q)%Q) prices ->
  (1 <= j < length prices)%nat ->
  exists x, log_returns prices !! j = Some x /\ pd.notna x.
Proof.
  intros Hpos Hj. unfold log_returns. rewrite lookup_zip_with.
  destruct j as [|i]; [lia |].
  change ((nan :: prices) !! S i) with (prices !! i).
  destruct (lookup_lt_is_Some_2 prices (S i)) as [p Hp]; [lia |].
  destruct (lookup_lt_is_Some_2 prices i) as [prev Hprev]; [lia |].
  rewrite Forall_lookup in Hpos.
  destruct (Hpos _ _ Hp) as (a & -> & Ha).
  destruct (Hpos _ _ Hprev) as (b & -> & Hb).
  rewrite Hp. cbn [mbind option_bind]. rewrite Hprev. cbn.
  destruct (Qeq_bool b 0) eqn:Eb.
  { apply Qeq_bool_iff in Eb. lra. }
  cbn. assert (Hab : (0 < a / b)%Q) by (apply Qlt_shift_div_l; lra).
  apply Qlt_bool_true in Hab. rewrite Hab. by eexists.
Qed.

Lemma observations_enough (window : Z) (prices : list xreal) (t : nat) :
  Forall (fun p => exists q, p = XFin q /\ (0 < q)%Q) prices ->
  min_periods <= window ->
  (5 <= t < length prices)%nat ->
  (5 <= length (observations window prices t))%nat.
Proof.
  intros Hpos Hw Ht. unfold observations, pd.dropna, pd.window_at.
  set (lr := log_returns prices).
  assert (Hlr : length lr = length prices).
  { unfold lr, log_returns. rewrite length_zip_with. cbn. lia. }
  set (k := (t + 1 - Z.to_nat window)%nat).
  assert (Hk : (k <= t - 4)%nat) by (unfold k, min_periods in *; lia).
  set (seg := drop (t - 4) (take (t + 1) lr)).
  assert (Hseg : seg `sublist_of` drop k (take (t + 1) lr)).
  { unfold seg. replace (t - 4)%nat with (k + (t - 4 - k))%nat by lia.
    rewrite <- drop_drop. apply sublist_drop. }
  etrans; [| apply filter_sublist_length, Hseg].
  rewrite filter_Forall.
  - unfold seg. rewrite length_drop, length_take. lia.
  - apply Forall_lookup_2. intros i x Hi.
    unfold seg in Hi. rewrite lookup_drop in Hi.
    apply lookup_take_Some in Hi as [Hi Hlt].
    destruct (log_returns_defined prices (t - 4 + i) Hpos) as (y & Hy & Hdef);
      [lia |].
    fold lr in Hy. by simplify_eq.
Qed.

Lemma volatility_at_defined (window annual_days : Z) (prices : list xreal)
    (t : nat) :
  min_periods <= window -> 0 <= annual_days -> (t < length prices)%nat ->
  isna (volatility_at window annual_days prices t) = false
  <-> (Z.to_nat min_periods <= length (observations window prices t))%nat.
Proof.
  intros Hw Ha Ht. unfold volatility_at.
  assert (Hroot : np_sqrt (of_Z annual_days)
                  = XFin (sqrt (inject_Z annual_days))).
  { cbn. destruct (Qlt_bool (inject_Z annual_days) 0) eqn:E; [| done].
    apply Qlt_bool_true in E. unfold Qlt, inject_Z in E. cbn in E. lia. }
  rewrite Hroot.
  destruct (rolling_values_lookup window (log_returns prices) t)
    as (st & -> & Hfin & Hn).
  { unfold min_periods in *. lia. }
  { by rewrite length_log_returns. }
  cbn [default].
  pose proof (zsqrt_calc_var_defined min_periods st Hfin) as Hdef.
  rewrite Hn in Hdef. unfold count_valid in Hdef.
  fold (observations window prices t) in Hdef.
  destruct (pd.zsqrt (pd.calc_var min_periods st)) as [|q]; cbn.
  - split; [done |]. intros Hobs. apply Hdef; unfold min_periods in *; lia.
  - split; [intros _ | done].
    assert (min_periods <= Z.of_nat (length (observations window prices t)))
      by (apply Hdef; [unfold min_periods; lia | done]).
    unfold min_periods in *. lia.
Qed.

Lemma volatility_at_nan (window annual_days : Z) (prices : list xreal)
    (t : nat) :
  min_periods <= window -> (t < length prices)%nat ->
  (length (observations window prices t) < Z.to_nat min_periods)%nat ->
  isna (volatility_at window annual_days prices t) = true.
Proof.
  intros Hw Ht Hobs. unfold volatility_at.
  destruct (rolling_values_lookup window (log_returns prices) t)
    as (st & -> & Hfin & Hn).
  { unfold min_periods in *. lia. }
  { by rewrite length_log_returns. }
  cbn [default]. rewrite zsqrt_calc_var_nan; [done |].
  rewrite Hn. unfold count_valid.
  fold (observations window prices t). unfold min_periods in *. lia.
Qed.

End EstimatorExact.

(** C8. In exact arithmetic, whatever functions stand for the logarithm
    and the square root, and with a window of at least min_periods = 5
    rows: the estimator returns a series (no error) as long as the price
    series; with fewer than min_periods returns (at most min_periods
    prices) every entry is undefined; for a non-negative annualisation
    constant the entry at row t is defined exactly when the trailing
    window holds at least min_periods valid returns, and on positive
    prices that is every row t >= min_periods, also when fewer returns
    than the window exist. *)
Theorem estimator_min_periods (ln sqrt : Q -> Q) (config : RiskConfig xreal)
    (prices : Series xreal) (annual_days : Z) :
  let window := get config volatility_window 30 in
  min_periods <= window ->
  exists vol_series,
    calculate_volatility (H0 := xnumpy ln sqrt) config prices annual_days
    = Ok vol_series /\
    length vol_series = length prices /\
    (Z.of_nat (length prices) <= min_periods ->
     forall e, e ∈ vol_series -> isna e.2 = true) /\
    (0 <= annual_days ->
     forall t e, vol_series !! t = Some e ->
       (isna e.2 = false <->
        (Z.to_nat min_periods
         <= length (observations (NumpyMath0 := xnumpy ln sqrt) window
                      (prices.*2) t))%nat)) /\
    (0 <= annual_days ->
     Forall (fun p => exists q, p = XFin q /\ (0 < q)%Q) (prices.*2) ->
     forall t e, vol_series !! t = Some e ->
       (Z.to_nat min_periods <= t)%nat -> isna e.2 = false).
Proof.
  intros window Hw.
  pose proof (calculate_volatility_eq (NumpyMath0 := xnumpy ln sqrt) config
                prices annual_days) as Heq.
  cbn zeta in Heq. fold window in Heq.
  assert (Hguard : (window <? 0) || (window <? min_periods) = false).
  { apply orb_false_iff. split; apply Z.ltb_ge; unfold min_periods in *; lia. }
  rewrite Hguard in Heq.
  eexists. split; [exact Heq |].
  assert (Hlookup : forall t e,
            imap (fun (t : nat) (e : Z * xreal) =>
                    (e.1, volatility_at (NumpyMath0 := xnumpy ln sqrt) window
                            annual_days (prices.*2) t)) prices !! t = Some e ->
            (t < length prices)%nat /\
            e.2 = volatility_at (NumpyMath0 := xnumpy ln sqrt) window
                    annual_days (prices.*2) t).
  { intros t e He. rewrite list_lookup_imap in He.
    destruct (prices !! t) as [p|] eqn:Ep; [| done].
    apply lookup_lt_Some in Ep. cbn in He. by injection He as <-. }
  split_and!.
  - apply length_imap.
  - intros Hfew e He. apply list_elem_of_lookup in He as [t He].
    apply Hlookup in He as [Hlt ->].
    pose proof (observations_few ln sqrt window (prices.*2) t) as Hobs.
    rewrite length_fmap in Hobs.
    apply (volatility_at_nan ln sqrt); [done | by rewrite length_fmap |].
    unfold exact_numpy, min_periods in *. lia.
  - intros Ha t e He. apply Hlookup in He as [Hlt ->].
    apply (volatility_at_defined ln sqrt); [done | done |].
    by rewrite length_fmap.
  - intros Ha Hpos t e He Ht. apply Hlookup in He as [Hlt ->].
    apply (volatility_at_defined ln sqrt);
      [done | done | by rewrite length_fmap |].
    apply (observations_enough ln sqrt); [done | done |].
    rewrite length_fmap. unfold min_periods in *. lia.
Qed.

Lemma estimator_min_periods_witness :
  exists vol_series date q,
    calculate_volatility (H0 := numpy_approx) mock_config short_history 365
    = Ok vol_series /\
    last vol_series = Some (date, XFin q).
Proof.
  destruct (estimator_min_periods ln_approx sqrt_approx mock_config
              short_history 365)
    as (vol_series & Hvol & Hlen & _ & _ & Hdef);
    [unfold min_periods, get; cbn; lia |].
  exists vol_series.
  destruct (lookup_lt_is_Some_2 vol_series 9) as [[date v] He];
    [rewrite Hlen; cbn; lia |].
  assert (Hv : isna v = false).
  { apply (Hdef ltac:(lia)) with (t := 9%nat) (e := (date, v));
      [| exact He | unfold min_periods; lia].
    cbn. repeat (apply List.Forall_cons; [eexists; split; reflexivity |]).
    apply List.Forall_nil. }
  destruct v as [|q]; [discriminate Hv |].
  exists date, q. split; [exact Hvol |].
  rewrite last_lookup, Hlen. exact He.
Defined.

(** ** The Dynamic Floor Calculator *)

(** round(q) of the Python builtins: to the nearest integer, ties to the
    even one.  The window size as the specification words it. *)
Definition py_round (q : Q) : Z :=
  let f := Qfloor q in
  let r := (q - inject_Z f)%Q in
  if Qlt_bool r (1 # 2) then f
  else if Qlt_bool (1 # 2) r then f + 1
  else if Z.even f then f else f + 1.

(** The fixture with a lookback of three quarters of a year. *)
Definition nine_months_config {F : Type} `{PyFloat F} : RiskConfig F := {|
  assets := [];
  settings := {|
    volatility_window := Some 30;
    crypto_trading_days := Some 365;
    stock_trading_days := Some 252;
    max_crash_cap := Some (lit 0.85);
    lookback_years := Some (lit 0.75);
    percentile := Some (lit 0.25);
    lookback_days := None;
    drift_lookback_days := None
  |};
  multipliers := {[ "Half Kelly" := lit 1.5 ]}
|}.

(** 273 days of a volatility of 0.2. *)
Definition calm_volatility {F : Type} `{PyFloat F} : Series F :=
  daily (replicate 273 (lit 0.2)).

(** C1, as stated, fails on the code: with lookbackYears = 0.75 and 365
    days the product is 273.75, which rounds to 274; a series of 273
    entries is shorter than that, and the calculator does not return the
    fallback 0.50 but the quantile 0.2. *)
Lemma dynamic_floor_not_rounded :
  fmul (lit 0.75) (of_Z 365) = (lit 273.75 : float) /\
  py_round 273.75 = 274 /\
  Z.of_nat (length (calm_volatility (F := float))) < py_round 273.75 /\
  calculate_dynamic_floor (F := float) nine_months_config calm_volatility 365
  = Ok (lit 0.2) /\
  calculate_dynamic_floor (F := float) nine_months_config calm_volatility 365
  <> Ok fallback_floor.
Proof.
  split_and!; [reflexivity | reflexivity | reflexivity |
               vm_compute; reflexivity |].
  intros E.
  assert (E' : match calculate_dynamic_floor (F := float) nine_months_config
                       calm_volatility 365 with
               | Ok floor => PrimFloat.eqb floor 0.5
               | Raise _ => false
               end = true) by (rewrite E; reflexivity).
  vm_compute in E'. discriminate E'.
Qed.

Section DynamicFloor.
Context {F : Type} `{PyFloat F}.
Variable config : RiskConfig F.

Lemma tail_most_recent {A} (n : Z) (l : list A) :
  0 <= n -> pd.tail n l = drop (length l - Z.to_nat n) l.
Proof.
  intros Hn. unfold pd.tail.
  destruct (Z.eqb_spec n 0) as [-> | Hne].
  - cbn. by rewrite Nat.sub_0_r, drop_all.
  - destruct (Z.ltb_spec 0 n); [done | lia].
Qed.

Lemma quantile_dropna (s s' : Series F) (q : F) :
  pd.dropna (s.*2) = pd.dropna (s'.*2) ->
  pd.quantile s q = pd.quantile s' q.
Proof. unfold pd.quantile. by intros ->. Qed.

Lemma quantile_all_nan (s : Series F) (q : F) :
  fle (of_Z 0) q = true -> fle q (of_Z 1) = true ->
  Forall (fun v => isna v = true) (s.*2) ->
  pd.quantile s q = Ok nan.
Proof.
  intros H0 H1 Hall. unfold pd.quantile. rewrite H0, H1. cbn.
  assert (E : pd.dropna (s.*2) = []); [| by rewrite E].
  unfold pd.dropna. induction Hall as [| v l Hv _ IH]; [done |].
  rewrite filter_cons_False; [done |]. unfold pd.notna. congruence.
Qed.

End DynamicFloor.

(** C1, amended.  The window size is int(lookbackYears *
    annualizationDays): the product truncated, not rounded.  A series
    shorter than it gives exactly the fallback 0.50.  Otherwise, for a
    window size that is not negative, the floor is the quantile of the
    most recent window-size rows: their number counts every row, defined
    or not, against the threshold, and the quantile depends on the
    defined entries only. *)
Theorem dynamic_floor_window {F : Type} `{PyFloat F} (config : RiskConfig F)
    (rolling_vol : Series F) (annual_days window_size : Z) :
  int (fmul (get config lookback_years (of_Z 5)) (of_Z annual_days))
  = Ok window_size ->
  (Z.of_nat (length rolling_vol) < window_size ->
   calculate_dynamic_floor config rolling_vol annual_days = Ok (lit 0.50)) /\
  (0 <= window_size <= Z.of_nat (length rolling_vol) ->
   let history :=
     drop (length rolling_vol - Z.to_nat window_size) rolling_vol in
   let percentile := get config percentile (lit 0.25) in
   length history = Z.to_nat window_size /\
   calculate_dynamic_floor config rolling_vol annual_days
   = pd.quantile history percentile /\
   forall other : Series F,
     pd.dropna (other.*2) = pd.dropna (history.*2) ->
     pd.quantile other percentile
     = calculate_dynamic_floor config rolling_vol annual_days).
Proof.
  intros Hint. unfold calculate_dynamic_floor. rewrite Hint. cbn.
  split.
  - intros Hshort. apply Z.ltb_lt in Hshort. by rewrite Hshort.
  - intros [Hpos Hlong].
    assert (Hge : (Z.of_nat (length rolling_vol) <? window_size) = false)
      by (apply Z.ltb_ge; lia).
    rewrite Hge, tail_most_recent by done.
    split_and!.
    + rewrite length_drop. lia.
    + done.
    + intros other Hother. by apply quantile_dropna.
Qed.

Lemma dynamic_floor_window_witness :
  calculate_dynamic_floor (F := float) mock_config
    (daily [lit 0.5; lit 0.6; lit 0.4]) 365 = Ok (lit 0.50).
Proof.
  destruct (dynamic_floor_window (F := float) mock_config
              (daily [lit 0.5; lit 0.6; lit 0.4]) 365 1825) as [W _];
    [vm_compute; reflexivity |].
  apply W. reflexivity.
Defined.

(** * Further properties of the code *)

(** ** risk_engine.py: the asset class *)

Definition has_hyphen (ticker : string) : Prop :=
  exists s1 s2 : string, ticker = s1 +:+ String "-"%char s2.

Lemma prefix_hyphen (b : Ascii.ascii) (s : string) :
  String.prefix "-" (String b s) = bool_decide (b = "-"%char).
Proof.
  Transparent String.prefix.
  change (String.prefix "-" (String b s))
    with (match Ascii.ascii_dec "-" b with
          | left _ => String.prefix "" s
          | right _ => false
          end).
  destruct (Ascii.ascii_dec "-" b) as [<- | Hne].
  - rewrite bool_decide_eq_true_2 by done. by destruct s.
  - rewrite bool_decide_eq_false_2; [done | congruence].
  Opaque String.prefix.
Qed.

Lemma index_hyphen (ticker : string) :
  is_Some (String.index 0 "-" ticker) <-> has_hyphen ticker.
Proof.
  induction ticker as [|b s IH].
  - cbn. split; [by intros [? ?] |].
    intros ([|c s1] & s2 & E); discriminate E.
  - cbn [String.index]. rewrite prefix_hyphen.
    destruct (bool_decide_reflect (b = "-"%char)) as [-> | Hne].
    + split; [| by eexists]. intros _. by exists "", s.
    + split.
      * destruct (String.index 0 "-" s) as [n|] eqn:E; [| by intros [? ?]].
        intros _. destruct (proj1 IH) as (s1 & s2 & ->); [by eexists |].
        by exists (String b s1), s2.
      * intros ([|c s1] & s2 & E); cbn in E; injection E as -> ->; [done |].
        destruct (proj2 IH) as [n ->]; [by exists s1, s2 | by eexists].
Qed.

(** X1. A ticker is annualised with the crypto constant exactly when it
    contains a hyphen, with the stock constant otherwise; the constants
    default to 365 and 252 when the settings do not carry them. *)
Theorem get_annual_days_hyphen {F : Type} (config : RiskConfig F)
    (ticker : string) :
  (has_hyphen ticker ->
   get_annual_days config ticker
   = default 365 (crypto_trading_days (settings config))) /\
  (~ has_hyphen ticker ->
   get_annual_days config ticker
   = default 252 (stock_trading_days (settings config))).
Proof.
  unfold get_annual_days. split; intros Hh.
  - apply index_hyphen in Hh as [n ->]. done.
  - destruct (String.index 0 "-" ticker) as [n|] eqn:E; [| done].
    destruct Hh. apply index_hyphen. by eexists.
Qed.

Lemma get_annual_days_hyphen_witness :
  get_annual_days (F := float) mock_config "BTC-USD" = 365 /\
  get_annual_days (F := float) mock_config "AAPL" = 252.
Proof.
  split.
  - apply (proj1 (get_annual_days_hyphen (F := float) mock_config "BTC-USD")).
    by exists "BTC", "USD".
  - apply (proj2 (get_annual_days_hyphen (F := float) mock_config "AAPL")).
    intros Hh. apply index_hyphen in Hh as [n Hn]. discriminate Hn.
Defined.

(** ** risk_engine.py: the keys of the safe-price dictionary *)

(** X2. Whatever the volatility (defined or not) and the reference price,
    the projector's output has exactly one key per configured multiplier,
    its name followed by " Price": two calls on one configuration return
    dictionaries over the same keys. *)
Theorem compute_safe_prices_keys {F : Type} `{PyFloat F}
    (config : RiskConfig F) (vol cycle_high : F) :
  dom (compute_safe_prices config vol cycle_high)
  = set_map (D := gset string) price_key (dom (multipliers config)).
Proof.
  apply set_eq. intros key. rewrite elem_of_dom, elem_of_map.
  setoid_rewrite elem_of_dom.
  destruct (isna vol) eqn:E.
  - rewrite compute_safe_prices_nan_eq by done. split.
    + intros [v Hv].
      apply (keyed_loop_inv price_key) in Hv as (name & x & -> & Hx & _).
      by exists name.
    + intros (name & -> & [x Hx]).
      rewrite (keyed_loop_lookup price_key), Hx. by eexists.
  - rewrite compute_safe_prices_defined_eq by done. split.
    + intros [v Hv].
      apply (keyed_loop_inv price_key) in Hv as (name & x & -> & Hx & _).
      by exists name.
    + intros (name & -> & [x Hx]).
      rewrite (keyed_loop_lookup price_key), Hx. by eexists.
Qed.

(** ** risk_engine.py and main.py: the dates of the volatility series *)

Section Dates.
Context {F : Type} `{PyFloat F} `{!NumpyMath F}.
Variable config : RiskConfig F.

Lemma calculate_volatility_index (prices vol_series : Series F)
    (annual_days : Z) :
  calculate_volatility config prices annual_days = Ok vol_series ->
  vol_series.*1 = prices.*1.
Proof.
  rewrite calculate_volatility_eq. destruct (_ || _); [done |].
  intros [= <-]. rewrite fmap_imap.
  rewrite <- (imap_const fst prices). by apply imap_ext.
Qed.

Lemma select_elem_of {A} (c : A -> A -> bool) (e : A) (es : list A) :
  foldl (fun m x => if c m x then x else m) e es ∈ e :: es.
Proof.
  revert e. induction es as [|x es IH]; intros e; cbn; [left |].
  destruct (c e x).
  - right. apply IH.
  - specialize (IH e). apply elem_of_cons in IH as [-> | IH];
      [left | right; by right].
Qed.

Lemma idxmax_in_index (s : Series F) (d : Z) :
  pd.idxmax s = Ok d ->
  exists v, (d, v) ∈ s /\ isna v = false.
Proof.
  unfold pd.idxmax.
  destruct (filter (fun e : Z * F => pd.notna e.2) s) as [|e es] eqn:E;
    [done |].
  intros [= <-].
  pose proof (select_elem_of (fun m x : Z * F => flt m.2 x.2) e es) as Hin.
  rewrite <- E in Hin. apply list_elem_of_filter in Hin as [Hdef Hin].
  destruct (foldl _ e es) as [d v]. by exists v.
Qed.

Lemma drop_elem_of {A} (n : nat) (l : list A) (x : A) :
  x ∈ drop n l -> x ∈ l.
Proof.
  intros [i Hi]%list_elem_of_lookup. rewrite lookup_drop in Hi.
  by eapply list_elem_of_lookup_2.
Qed.

Lemma tail_subseteq {A} (n : Z) (l : list A) (x : A) :
  x ∈ pd.tail n l -> x ∈ l.
Proof.
  unfold pd.tail. destruct (n =? 0); [by intros ?%elem_of_nil |].
  destruct (0 <? n); apply drop_elem_of.
Qed.

(** X3. The estimate carries the dates of the prices, row by row.  So in
    every Leverage Drift row built from prices with distinct dates, the
    date of the high is a date of the volatility series and the reported
    volatility is the entry stored at that very date, the high being a
    defined price of the drift window: with such data the lookup never
    needs the as-of fallback. *)
Theorem ath_vol_exact_date (ticker : string) (prices : Series F)
    (row_curr : CurrentRow F) (row_drift : DriftRow F) :
  NoDup (prices.*1) ->
  process config ticker prices = Ok (Some (row_curr, row_drift)) ->
  exists vol_series,
    calculate_volatility config prices (get_annual_days config ticker)
    = Ok vol_series /\
    vol_series.*1 = prices.*1 /\
    (exists price, (ATH_Date row_drift, price) ∈ prices /\
                   isna price = false) /\
    (ATH_Date row_drift, ATH_Vol row_drift) ∈ vol_series /\
    pd.loc vol_series (ATH_Date row_drift) = Ok (ATH_Vol row_drift).
Proof.
  intros Hnd Hp.
  apply process_Some in Hp as (vs & cur & raw & Hvs & _ & _ & _ & _ & Hd).
  pose proof (calculate_volatility_index _ _ _ Hvs) as Hidx.
  assert (Hhigh : exists price, (ATH_Date row_drift, price) ∈ prices /\
                                isna price = false).
  { unfold leverage_drift in Hd.
    apply bind_Ok in Hd as (drift_days & _ & Hd).
    apply bind_Ok in Hd as (ath_date & Hmax & Hd).
    apply bind_Ok in Hd as (ath_vol & _ & Hd).
    apply bind_Ok in Hd as (check & _ & Hd).
    injection Hd as <-. cbn.
    apply idxmax_in_index in Hmax as (price & Hin & Hdef).
    exists price. split; [by eapply tail_subseteq | done]. }
  assert (Hdate : ATH_Date row_drift ∈ vs.*1).
  { rewrite Hidx. destruct Hhigh as (price & Hin & _).
    by apply (list_elem_of_fmap_2 fst) in Hin. }
  apply list_elem_of_fmap in Hdate as ([d v] & Hd' & Hin). cbn in Hd'.
  subst d.
  assert (Hloc : pd.loc vs (ATH_Date row_drift) = Ok v)
    by (apply loc_found; [by rewrite Hidx | done]).
  apply leverage_drift_Ok in Hd as [Hl _].
  unfold lookup_ath_vol in Hl. rewrite Hloc in Hl. injection Hl as <-.
  by exists vs.
Qed.

End Dates.

Lemma ath_vol_exact_date_witness :
  exists row_curr row_drift vol_series,
    process (F := float) (H0 := numpy_approx64) run_config "BTC-USD"
      short_history = Ok (Some (row_curr, row_drift)) /\
    calculate_volatility (F := float) (H0 := numpy_approx64) run_config
      short_history 365 = Ok vol_series /\
    pd.loc vol_series (ATH_Date row_drift) = Ok (ATH_Vol row_drift).
Proof.
  assert (W : exists rc rd,
            process (F := float) (H0 := numpy_approx64) run_config "BTC-USD"
              short_history = Ok (Some (rc, rd)))
    by (eexists _, _; vm_compute; reflexivity).
  destruct W as (rc & rd & W). exists rc, rd.
  destruct (ath_vol_exact_date (F := float) (NumpyMath0 := numpy_approx64)
              run_config "BTC-USD" short_history rc rd)
    as (vs & Hvs & _ & _ & _ & Hloc); [compute_done | exact W |].
  exists vs. split_and!; [exact W | exact Hvs | exact Hloc].
Defined.

(** ** main.py: what stops a run *)

Section Abort.
Context {F : Type} `{PyFloat F} `{!NumpyMath F}.
Variable config : RiskConfig F.
Variable fetch_history : string -> option (Series F).

(** X4. The minimum of five observations is fixed in the code while the
    window is configurable: a configured window below five makes the
    estimator raise ValueError on every price series, and the error stops
    the whole run at the first asset whose data could be fetched. *)
Theorem window_below_min_periods (ticker : string) (rest : list string)
    (prices : Series F) (annual_days : Z)
    (current_results : list (CurrentRow F))
    (drift_results : list (DriftRow F)) :
  get config volatility_window 30 < min_periods ->
  calculate_volatility config prices annual_days = Raise ValueError /\
  process config ticker prices = Raise ValueError /\
  (fetch_history ticker = Some prices ->
   main_loop config fetch_history (ticker :: rest) current_results
     drift_results = Raise ValueError).
Proof.
  intros Hw.
  assert (Hv : forall days,
            calculate_volatility config prices days = Raise ValueError).
  { intros days. rewrite calculate_volatility_eq.
    apply Z.ltb_lt in Hw. rewrite Hw. by rewrite orb_true_r. }
  assert (Hp : process config ticker prices = Raise ValueError).
  { unfold process. by rewrite Hv. }
  split_and!; [apply Hv | exact Hp |].
  intros Hf. cbn. by rewrite Hf, Hp.
Qed.

(** X5. The two windows of the orchestrator are read with
    [settings[...]], without a default: when "lookback_days" is missing
    the loop body never yields a row, and an asset with a defined last
    volatility and a computable floor raises KeyError. *)
Theorem lookback_days_required (ticker : string) (prices : Series F) :
  lookback_days (settings config) = None ->
  (forall rows, process config ticker prices <> Ok (Some rows)) /\
  (forall vol_series annual_days current_price raw_vol floor,
     calculate_dynamic_floor config vol_series annual_days = Ok floor ->
     current_risk config ticker prices vol_series annual_days current_price
       raw_vol = Raise KeyError).
Proof.
  intros Hnone.
  assert (Hc : forall vol_series annual_days current_price raw_vol row,
            current_risk config ticker prices vol_series annual_days
              current_price raw_vol <> Ok row).
  { intros vs days cur raw row Hrow. unfold current_risk in Hrow.
    apply bind_Ok in Hrow as (floor & _ & Hrow).
    apply bind_Ok in Hrow as (lookback & Hget & _).
    unfold getitem in Hget. by rewrite Hnone in Hget. }
  split.
  - intros [rc rd] Hp.
    apply process_Some in Hp as (vs & cur & raw & _ & _ & _ & _ & Hrc & _).
    by apply Hc in Hrc.
  - intros vs days cur raw floor Hfloor. unfold current_risk.
    rewrite Hfloor. cbn. unfold getitem. by rewrite Hnone.
Qed.

(** X6. An asset whose data cannot be fetched is passed over: the run is
    the run over the assets that have data. *)
Theorem unavailable_assets_ignored (tickers : list string)
    (current_results : list (CurrentRow F))
    (drift_results : list (DriftRow F)) :
  main_loop config fetch_history tickers current_results drift_results
  = main_loop config fetch_history
      (filter (fun t => is_Some (fetch_history t)) tickers)
      current_results drift_results.
Proof.
  revert current_results drift_results.
  induction tickers as [|t ts IH]; intros cur drift; [done |].
  destruct (fetch_history t) as [prices|] eqn:Ef.
  - rewrite filter_cons_True by (by rewrite Ef). cbn. rewrite Ef.
    destruct (process config t prices) as [[[rc rd]|]|e]; cbn; auto.
  - rewrite filter_cons_False by (rewrite Ef; by intros [? ?]).
    cbn. rewrite Ef. apply IH.
Qed.

End Abort.

(** The fixture with a rolling window of three days. *)
Definition narrow_window_config {F : Type} `{PyFloat F} : RiskConfig F := {|
  assets := ["BTC-USD"];
  settings := {|
    volatility_window := Some 3;
    crypto_trading_days := Some 365;
    stock_trading_days := Some 252;
    max_crash_cap := Some (lit 0.85);
    lookback_years := Some (of_Z 5);
    percentile := Some (lit 0.25);
    lookback_days := Some 365;
    drift_lookback_days := Some 1825
  |};
  multipliers := {[ "Half Kelly" := lit 1.5 ]}
|}.

Lemma window_below_min_periods_witness :
  calculate_volatility (F := float) (H0 := numpy_approx64)
    narrow_window_config short_history 365 = Raise ValueError.
Proof.
  apply (window_below_min_periods (F := float) (NumpyMath0 := numpy_approx64)
           narrow_window_config (fun _ => None) "BTC-USD" [] short_history
           365 [] []).
  reflexivity.
Defined.

Lemma lookback_days_required_witness :
  current_risk (F := float) mock_config "BTC-USD" short_history
    (daily [lit 0.5; lit 0.6; lit 0.4]) 365 (lit 109) (lit 0.4)
  = Raise KeyError.
Proof.
  apply (proj2 (lookback_days_required (F := float)
                  (NumpyMath0 := numpy_approx64) mock_config "BTC-USD"
                  short_history eq_refl)) with (floor := lit 0.50).
  vm_compute. reflexivity.
Defined.

(** ** main.py: the two result tables *)

Section Tables.
Context {F : Type} `{PyFloat F} `{!NumpyMath F}.
Variable config : RiskConfig F.
Variable fetch_history : string -> option (Series F).

Lemma process_tickers (ticker : string) (prices : Series F)
    (row_curr : CurrentRow F) (row_drift : DriftRow F) :
  process config ticker prices = Ok (Some (row_curr, row_drift)) ->
  Ticker row_curr = ticker /\ Drift_Ticker row_drift = ticker /\
  isna (Raw_Vol row_curr) = false /\
  Current_Price row_drift = Price row_curr.
Proof.
  intros Hp.
  apply process_Some in Hp as (vs & cur & raw & _ & _ & _ & Hraw & Hc & Hd).
  unfold current_risk in Hc.
  apply bind_Ok in Hc as (floor & _ & Hc).
  apply bind_Ok in Hc as (lookback & _ & Hc).
  apply bind_Ok in Hc as (drawdown & _ & Hc).
  injection Hc as <-.
  unfold leverage_drift in Hd.
  apply bind_Ok in Hd as (drift_days & _ & Hd).
  apply bind_Ok in Hd as (ath_date & _ & Hd).
  apply bind_Ok in Hd as (ath_vol & _ & Hd).
  apply bind_Ok in Hd as (check & _ & Hd).
  injection Hd as <-. done.
Qed.

(** X7. A run that ends normally only appends to its two tables, one row
    to each per reported asset: the tickers of the new Current Risk rows
    and of the new Leverage Drift rows are the same list, taken from the
    configured assets in their order, and every new Current Risk row has
    a defined raw volatility. *)
Theorem tables_aligned (tickers : list string)
    (current_results current_results' : list (CurrentRow F))
    (drift_results drift_results' : list (DriftRow F)) :
  main_loop config fetch_history tickers current_results drift_results
  = Ok (current_results', drift_results') ->
  exists new_curr new_drift,
    current_results' = current_results ++ new_curr /\
    drift_results' = drift_results ++ new_drift /\
    Ticker <$> new_curr = Drift_Ticker <$> new_drift /\
    (Ticker <$> new_curr) `sublist_of` tickers /\
    Forall (fun row => isna (Raw_Vol row) = false) new_curr.
Proof.
  revert current_results drift_results.
  induction tickers as [|t ts IH]; intros cur drift Hrun.
  - cbn in Hrun. injection Hrun as <- <-.
    exists [], []. by rewrite !app_nil_r.
  - cbn in Hrun. destruct (fetch_history t) as [prices|].
    + apply bind_Ok in Hrun as ([[rc rd]|] & Hp & Hrun).
      * apply IH in Hrun as (nc & nd & -> & -> & Htick & Hsub & Hdef).
        apply process_tickers in Hp as (Htc & Htd & Hraw & _).
        exists (rc :: nc), (rd :: nd).
        rewrite <- !app_assoc. cbn.
        split_and!; [done | done | by rewrite Htc, Htd, Htick | |].
        -- rewrite Htc. by apply sublist_skip.
        -- by constructor.
      * apply IH in Hrun as (nc & nd & -> & -> & Htick & Hsub & Hdef).
        exists nc, nd. split_and!; [done | done | done | | done].
        by apply sublist_cons.
    + apply IH in Hrun as (nc & nd & -> & -> & Htick & Hsub & Hdef).
      exists nc, nd. split_and!; [done | done | done | | done].
      by apply sublist_cons.
Qed.

(** X8. An asset with less history than the floor's window is reported
    with the fallback floor: the volatility series is as long as the
    price series, so a price history shorter than int(lookbackYears *
    annualizationDays) puts exactly 0.50 in the row. *)
Theorem short_history_floor (ticker : string) (prices : Series F)
    (window_size : Z) (row_curr : CurrentRow F) (row_drift : DriftRow F) :
  int (fmul (get config lookback_years (of_Z 5))
         (of_Z (get_annual_days config ticker))) = Ok window_size ->
  Z.of_nat (length prices) < window_size ->
  process config ticker prices = Ok (Some (row_curr, row_drift)) ->
  Dynamic_Floor row_curr = lit 0.50.
Proof.
  intros Hint Hshort Hp.
  apply process_Some in Hp as (vs & cur & raw & Hvs & _ & _ & _ & Hc & _).
  apply calculate_volatility_length in Hvs.
  unfold current_risk in Hc.
  apply bind_Ok in Hc as (floor & Hfloor & Hc).
  apply bind_Ok in Hc as (lookback & _ & Hc).
  apply bind_Ok in Hc as (drawdown & _ & Hc).
  injection Hc as <-. cbn.
  unfold calculate_dynamic_floor in Hfloor. rewrite Hint in Hfloor.
  cbn in Hfloor. rewrite Hvs in Hfloor.
  apply Z.ltb_lt in Hshort. rewrite Hshort in Hfloor.
  by injection Hfloor as <-.
Qed.

End Tables.

Lemma tables_aligned_witness :
  exists current_results drift_results,
    main (F := float) (H0 := numpy_approx64) run_config
      (fun _ => Some short_history) = Ok (current_results, drift_results) /\
    Ticker <$> current_results = Drift_Ticker <$> drift_results.
Proof.
  assert (W : exists cur drift,
            main_loop (F := float) (H0 := numpy_approx64) run_config
              (fun _ => Some short_history) ["BTC-USD"] [] []
            = Ok (cur, drift))
    by (eexists _, _; vm_compute; reflexivity).
  destruct W as (cur & drift & W). exists cur, drift.
  split; [exact W |].
  apply (tables_aligned (F := float)) in W
    as (nc & nd & -> & -> & Htick & _ & _).
  exact Htick.
Defined.

Lemma short_history_floor_witness :
  exists row_curr row_drift,
    process (F := float) (H0 := numpy_approx64) run_config "BTC-USD"
      short_history = Ok (Some (row_curr, row_drift)) /\
    Dynamic_Floor row_curr = lit 0.50.
Proof.
  assert (W : exists rc rd,
            process (F := float) (H0 := numpy_approx64) run_config "BTC-USD"
              short_history = Ok (Some (rc, rd)))
    by (eexists _, _; vm_compute; reflexivity).
  destruct W as (rc & rd & W). exists rc, rd. split; [exact W |].
  apply (short_history_floor (F := float) (NumpyMath0 := numpy_approx64)
           run_config "BTC-USD" short_history 1825 rc rd);
    [vm_compute; reflexivity | reflexivity | exact W].
Defined.

(** ** Exact arithmetic: the projector is antitone in the volatility *)

Lemma projected_exact (config : RiskConfig xreal) (v h m c : Q) :
  get config max_crash_cap (lit 0.85) = XFin c ->
  projected config (XFin v) (XFin h) (XFin m)
  = XFin (h * (inject_Z 1 - (if Qlt_bool c (v * m) then c else v * m))).
Proof.
  intros Hc. unfold projected, max_cap, py_min. rewrite Hc. cbn.
  by destruct (Qlt_bool c (v * m)).
Qed.

Lemma projected_antitone (h m c v1 v2 : Q) :
  (0 <= h)%Q -> (0 <= m)%Q -> (v1 <= v2)%Q ->
  (h * (inject_Z 1 - (if Qlt_bool c (v2 * m) then c else v2 * m))
   <= h * (inject_Z 1 - (if Qlt_bool c (v1 * m) then c else v1 * m)))%Q.
Proof.
  intros Hh Hm Hv. unfold inject_Z.
  assert (v1 * m <= v2 * m)%Q by nra.
  destruct (Qlt_bool c (v2 * m)) eqn:E2, (Qlt_bool c (v1 * m)) eqn:E1;
    try apply Qlt_bool_true in E1; try apply Qlt_bool_true in E2;
    try apply Qlt_bool_false in E1; try apply Qlt_bool_false in E2; nra.
Qed.

(** X9. In exact arithmetic, for a non-negative reference price and
    multiplier, a higher volatility never gives a higher safe price; and
    once vol * multiplier reaches the cap the price stays at
    referencePrice * (1 - maxCap). *)
Theorem safe_price_antitone (config : RiskConfig xreal) (name : string)
    (v1 v2 h m c : Q) :
  multipliers config !! name = Some (XFin m) ->
  get config max_crash_cap (lit 0.85) = XFin c ->
  (0 <= h)%Q -> (0 <= m)%Q -> (v1 <= v2)%Q ->
  exists p1 p2,
    compute_safe_prices config (XFin v1) (XFin h) !! price_key name
    = Some (Some (XFin p1)) /\
    compute_safe_prices config (XFin v2) (XFin h) !! price_key name
    = Some (Some (XFin p2)) /\
    (p2 <= p1)%Q /\
    ((c <= v1 * m)%Q -> (p1 == h * (1 - c))%Q /\ (p2 == h * (1 - c))%Q).
Proof.
  intros Hm Hc Hh Hm0 Hv.
  eexists _, _. split_and!.
  - rewrite (compute_safe_prices_lookup config _ _ name (XFin m)) by done.
    by rewrite (projected_exact config v1 h m c).
  - rewrite (compute_safe_prices_lookup config _ _ name (XFin m)) by done.
    by rewrite (projected_exact config v2 h m c).
  - by apply projected_antitone.
  - intros Hcap. unfold inject_Z.
    assert (v1 * m <= v2 * m)%Q by nra.
    destruct (Qlt_bool c (v2 * m)) eqn:E2, (Qlt_bool c (v1 * m)) eqn:E1;
      try apply Qlt_bool_true in E1; try apply Qlt_bool_true in E2;
      try apply Qlt_bool_false in E1; try apply Qlt_bool_false in E2;
      split; nra.
Qed.

Lemma safe_price_antitone_witness :
  exists p1 p2,
    compute_safe_prices (F := xreal) mock_config (lit 0.2) (lit 100)
      !! "Half Kelly Price" = Some (Some (XFin p1)) /\
    compute_safe_prices (F := xreal) mock_config (lit 0.4) (lit 100)
      !! "Half Kelly Price" = Some (Some (XFin p2)) /\
    (p2 <= p1)%Q.
Proof.
  destruct (safe_price_antitone mock_config "Half Kelly" 0.2 0.4 100 1.5 0.85)
    as (p1 & p2 & H1 & H2 & Hle & _);
    [reflexivity | reflexivity | lra | lra | lra |].
  exists p1, p2. split; [exact H1 | split; [exact H2 | exact Hle]].
Defined.

(** X10. In exact arithmetic the floor never raises a reported safe
    price: every safe price of a Current Risk row, projected at
    max(rawVol, floor), is at most the price the raw volatility alone
    would give. *)
Theorem floor_never_raises_price (config : RiskConfig xreal)
    (ticker name : string) (prices vol_series : Series xreal)
    (annual_days : Z) (current_price : xreal) (r h m c : Q)
    (row : CurrentRow xreal) :
  current_risk config ticker prices vol_series annual_days current_price
    (XFin r) = Ok row ->
  Cycle_High row = XFin h ->
  multipliers config !! name = Some (XFin m) ->
  get config max_crash_cap (lit 0.85) = XFin c ->
  (0 <= h)%Q -> (0 <= m)%Q ->
  exists p p0,
    safe_prices row !! price_key name = Some (Some (XFin p)) /\
    compute_safe_prices config (XFin r) (XFin h) !! price_key name
    = Some (Some (XFin p0)) /\
    (p <= p0)%Q.
Proof.
  intros Hrow Hhigh Hm Hc Hh Hm0.
  apply (current_risk_Ok (F := xreal)) in Hrow as (_ & _ & Hsafe & _).
  rewrite Hsafe, Hhigh.
  assert (He : exists e, py_max (XFin r) (Dynamic_Floor row) = XFin e /\
                         (r <= e)%Q).
  { unfold py_max. destruct (Dynamic_Floor row) as [|f]; cbn.
    - exists r. split; [done | lra].
    - destruct (Qlt_bool r f) eqn:E.
      + apply Qlt_bool_true in E. exists f. split; [done | lra].
      + exists r. split; [done | lra]. }
  destruct He as (e & -> & Hre).
  eexists _, _. split_and!.
  - rewrite (compute_safe_prices_lookup config _ _ name (XFin m)) by done.
    by rewrite (projected_exact config e h m c).
  - rewrite (compute_safe_prices_lookup config _ _ name (XFin m)) by done.
    by rewrite (projected_exact config r h m c).
  - by apply projected_antitone.
Qed.

Lemma floor_never_raises_price_witness :
  exists row p p0,
    current_risk (F := xreal) run_config "BTC-USD" short_history
      (daily [lit 0.3; lit 0.3; lit 0.4]) 365 (lit 109) (XFin 0.4) = Ok row /\
    safe_prices row !! "Half Kelly Price" = Some (Some (XFin p)) /\
    compute_safe_prices (F := xreal) run_config (XFin 0.4) (lit 109)
      !! "Half Kelly Price" = Some (Some (XFin p0)) /\
    (p <= p0)%Q.
Proof.
  assert (W : exists row,
            current_risk (F := xreal) run_config "BTC-USD" short_history
              (daily [lit 0.3; lit 0.3; lit 0.4]) 365 (lit 109) (XFin 0.4)
            = Ok row /\ Cycle_High row = XFin (inject_Z 109))
    by (eexists; split; vm_compute; reflexivity).
  destruct W as (row & W & Hhigh). exists row.
  destruct (floor_never_raises_price run_config "BTC-USD" "Half Kelly"
              short_history (daily [lit 0.3; lit 0.3; lit 0.4]) 365
              (lit 109) 0.4 (inject_Z 109) 1.5 0.85 row)
    as (p & p0 & Hp & Hp0 & Hle);
    [exact W | exact Hhigh | reflexivity | reflexivity | | lra |].
  - unfold inject_Z. lra.
  - exists p, p0. split; [exact W |].
    split; [exact Hp | split; [exact Hp0 | exact Hle]].
Defined.

(** ** Exact arithmetic: the cycle high and the drawdown *)

Definition keep_max (m v : xreal) : xreal :=
  if isna m then v else if flt m v then v else m.

Lemma keep_max_fold (a : Q) (qs : list Q) :
  exists m, foldl keep_max (XFin a) (XFin <$> qs) = XFin m /\
            (a <= m)%Q /\ Forall (fun q => q <= m)%Q qs /\
            (m = a \/ m ∈ qs).
Proof.
  revert a. induction qs as [|q qs IH]; intros a; cbn.
  - exists a. split_and!; [done | lra | done | by left].
  - destruct (Qlt_bool a q) eqn:E.
    + apply Qlt_bool_true in E.
      destruct (IH q) as (m & -> & Hqm & Hall & Hin).
      exists m. split_and!; [done | lra | by constructor |].
      right. destruct Hin as [-> | Hin]; [left | by right].
    + apply Qlt_bool_false in E.
      destruct (IH a) as (m & -> & Ham & Hall & Hin).
      exists m. split_and!; [done | done | constructor; [lra | done] |].
      destruct Hin as [-> | Hin]; [by left | right; by right].
Qed.

(** [Series.max()] in exact arithmetic: a defined maximum is an entry of
    the series and bounds every defined entry; there is one as soon as
    an entry is defined. *)
Lemma max_exact (s : Series xreal) :
  (forall m, pd.max s = XFin m ->
     (exists d, (d, XFin m) ∈ s) /\
     forall d q, (d, XFin q) ∈ s -> (q <= m)%Q) /\
  (forall d q, (d, XFin q) ∈ s -> exists m, pd.max s = XFin m).
Proof.
  unfold pd.max. fold keep_max.
  destruct (defined_values (pd.dropna (s.*2))) as [qs Hqs].
  { apply Forall_forall. intros x Hx.
    by apply list_elem_of_filter in Hx as [Hx _]. }
  assert (Hmem : forall q, q ∈ qs <-> exists d, (d, XFin q) ∈ s).
  { intros q. split.
    - intros Hq. apply (list_elem_of_fmap_2 XFin) in Hq.
      rewrite <- Hqs in Hq. apply list_elem_of_filter in Hq as [_ Hq].
      apply list_elem_of_fmap in Hq as ([d v] & Hv & Hin). cbn in Hv.
      subst v. by exists d.
    - intros [d Hin]. apply (list_elem_of_fmap_2 snd) in Hin. cbn in Hin.
      assert (Hq : XFin q ∈ pd.dropna (s.*2))
        by (by apply list_elem_of_filter).
      rewrite Hqs in Hq.
      apply list_elem_of_fmap in Hq as (q' & [= ->] & Hq'). done. }
  rewrite Hqs. destruct qs as [|q0 qs]; cbn.
  - split; [done |]. intros d q Hin.
    assert (Hq : q ∈ @nil Q) by (apply Hmem; by exists d).
    by apply elem_of_nil in Hq.
  - destruct (keep_max_fold q0 qs) as (m & Hm & Hq0 & Hall & Hin).
    change (keep_max nan (XFin q0)) with (XFin q0). rewrite Hm. split.
    + intros m' [= <-]. split.
      * apply Hmem. destruct Hin as [-> | Hin]; [left | by right].
      * intros d q Hq.
        assert (Hq' : q ∈ q0 :: qs) by (apply Hmem; by exists d).
        apply elem_of_cons in Hq' as [-> | Hq']; [done |].
        rewrite Forall_forall in Hall. by apply Hall.
    + intros d q _. by exists m.
Qed.

Lemma last_in_tail {A} (n : Z) (l : list A) (x : A) :
  1 <= n -> last l = Some x -> x ∈ pd.tail n l.
Proof.
  intros Hn Hlast. rewrite tail_most_recent by lia.
  apply last_Some in Hlast as [l' ->].
  rewrite length_app. cbn.
  rewrite drop_app_le by lia. apply elem_of_app. right. left.
Qed.

(** X11. In exact arithmetic, for an asset whose last close is positive
    and a cycle-high window of at least one day, once the dynamic floor
    is computed the Current Risk row is produced: the division by the
    cycle high cannot fail.  The row's cycle high is at least the current
    price, and its drawdown is -(cycleHigh - price) / cycleHigh, a number
    in (-1, 0]. *)
Theorem drawdown_range (config : RiskConfig xreal) (ticker : string)
    (prices vol_series : Series xreal) (annual_days lookback : Z)
    (raw_vol floor : xreal) (date : Z) (c : Q) :
  last prices = Some (date, XFin c) ->
  (0 < c)%Q ->
  lookback_days (settings config) = Some lookback ->
  1 <= lookback ->
  calculate_dynamic_floor config vol_series annual_days = Ok floor ->
  exists row h dd,
    current_risk config ticker prices vol_series annual_days (XFin c) raw_vol
    = Ok row /\
    Cycle_High row = XFin h /\ (c <= h)%Q /\
    Drawdown row = XFin dd /\
    (dd == - ((h - c) / h))%Q /\ (- (1) < dd)%Q /\ (dd <= 0)%Q.
Proof.
  intros Hlast Hc Hlook Hn Hfloor.
  pose proof (last_in_tail lookback prices _ Hn Hlast) as Hin.
  destruct (max_exact (pd.tail lookback prices)) as [Hmax Hex].
  destruct (Hex _ _ Hin) as [h Hh].
  destruct (Hmax h Hh) as [_ Hbound].
  pose proof (Hbound _ _ Hin) as Hch.
  unfold current_risk. rewrite Hfloor. cbn.
  unfold getitem. rewrite Hlook. cbn.
  rewrite Hh. unfold truediv. cbn.
  change (inject_Z 0) with 0%Q.
  destruct (Qeq_bool h 0) eqn:Ez.
  { apply Qeq_bool_iff in Ez. lra. }
  cbn. eexists _, h, (- ((h - c) / h))%Q.
  split_and!; [reflexivity | done | done | done | reflexivity | |].
  - assert ((h - c) / h < 1)%Q; [| lra].
    apply Qlt_shift_div_r; lra.
  - assert (0 <= (h - c) / h)%Q; [| lra].
    apply Qle_shift_div_l; lra.
Qed.

Lemma drawdown_range_witness :
  exists row dd,
    current_risk (F := xreal) run_config "BTC-USD"
      (daily [XFin 100; XFin 80]) (daily [XFin 0.3; XFin 0.3]) 365 (XFin 80)
      (XFin 0.3) = Ok row /\
    Drawdown row = XFin dd /\ (dd == - (1 # 5))%Q.
Proof.
  assert (W : exists floor,
            calculate_dynamic_floor (F := xreal) run_config
              (daily [XFin 0.3; XFin 0.3]) 365 = Ok floor)
    by (eexists; vm_compute; reflexivity).
  destruct W as (floor & W).
  destruct (drawdown_range run_config "BTC-USD" (daily [XFin 100; XFin 80])
              (daily [XFin 0.3; XFin 0.3]) 365 365 (XFin 0.3) floor 1 80)
    as (row & h & dd & Hrow & Hh & _ & Hdd & Heq & _);
    [reflexivity | lra | reflexivity | lia | exact W |].
  exists row, dd. split; [exact Hrow | split; [exact Hdd |]].
  assert (Hhigh : Cycle_High row = XFin 100).
  { assert (E : match current_risk (F := xreal) run_config "BTC-USD"
                        (daily [XFin 100; XFin 80])
                        (daily [XFin 0.3; XFin 0.3]) 365 (XFin 80) (XFin 0.3)
                with
                | Ok r => Cycle_High r
                | Raise _ => XNaN
                end = XFin 100) by (vm_compute; reflexivity).
    rewrite Hrow in E. exact E. }
  rewrite Hhigh in Hh. injection Hh as <-. rewrite Heq. reflexivity.
Defined.

(** ** data_loader.py *)

Module DataLoader.
Section Loader.
Context {F : Type} `{PyFloat F}.
Variable settings : Settings F.
(* yf.download(ticker, period=..., interval="1d"), reduced to the rows of
   the "Close" column; the period is given in years. *)
Variable download : string -> Z -> pyresult (Series F).

(* The number n of the period string "ny". *)
Definition period_years : pyresult Z :=
  let drift_days := default 1825 (drift_lookback_days settings) in
  let floor_years := default (of_Z 5) (lookback_years settings) in
  let floor_days := fmul floor_years (of_Z 365) in
  let max_days := fadd (py_max (of_Z drift_days) floor_days) (of_Z 365) in
  years ← int (fdiv max_days (of_Z 365));
  Ok (years + 1).

Definition fetch_history (ticker : string) : pyresult (option (Series F)) :=
  years ← period_years;
  match download ticker years with
  | Ok [] => Ok None
  | Ok data => Ok (Some data)
  | Raise _ => Ok None
  end.

End Loader.
End DataLoader.

Lemma xtrunc_floor (q : Q) :
  (0 <= q)%Q -> xtrunc (XFin q) = Some (Qfloor q).
Proof.
  intros Hq. destruct q as [n d]. cbn. f_equal.
  apply Z.quot_div_nonneg; [| done].
  unfold Qle in Hq. cbn in Hq. lia.
Qed.

(** X12. In exact arithmetic, for a non-negative drift window, the
    number of years requested from the data provider covers the longer
    of the two windows (the drift window, and the floor's lookback
    counted at 365 days a year) with more than one year and at most two
    years to spare. *)
Theorem period_covers_windows (settings : Settings xreal) (d : Z) (y : Q) :
  default 1825 (drift_lookback_days settings) = d ->
  default (of_Z 5) (lookback_years settings) = XFin y ->
  0 <= d ->
  exists n,
    DataLoader.period_years settings = Ok n /\
    (inject_Z d + 365 < 365 * inject_Z n)%Q /\
    (365 * y + 365 < 365 * inject_Z n)%Q /\
    ((365 * inject_Z n <= inject_Z d + 730)%Q \/
     (365 * inject_Z n <= 365 * y + 730)%Q).
Proof.
  intros Hd Hy Hpos. unfold DataLoader.period_years. rewrite Hd, Hy.
  assert (Hmax : exists mx,
            py_max (of_Z d) (fmul (XFin y) (of_Z 365)) = XFin mx /\
            (inject_Z d <= mx)%Q /\ (y * 365 <= mx)%Q /\
            (mx == inject_Z d \/ mx == y * 365)%Q).
  { unfold py_max. cbn. change (inject_Z 365) with 365%Q.
    destruct (Qlt_bool (inject_Z d) (y * 365)) eqn:E.
    - apply Qlt_bool_true in E. exists (y * 365)%Q.
      split_and!; [done | lra | lra | right; reflexivity].
    - apply Qlt_bool_false in E. exists (inject_Z d).
      split_and!; [done | lra | lra | left; reflexivity]. }
  destruct Hmax as (mx & -> & Hdm & Hym & Hmx).
  assert (Hd0 : (0 <= inject_Z d)%Q).
  { unfold Qle, inject_Z. cbn. lia. }
  cbn. change (inject_Z 365) with 365%Q.
  set (x := ((mx + 365) / 365)%Q).
  assert (Hx : (0 <= x)%Q) by (apply Qle_shift_div_l; lra).
  unfold int. change (Qeq_bool 365 0) with false. cbn iota.
  change (ftrunc (XFin x)) with (xtrunc (XFin x)).
  rewrite (xtrunc_floor x Hx). cbn.
  exists (Qfloor x + 1). split; [done |].
  pose proof (Qfloor_le x) as Hlo. pose proof (Qlt_floor x) as Hhi.
  rewrite inject_Z_plus in *. change (inject_Z 1) with 1%Q in *.
  assert (Hx1 : (x * 365 == mx + 365)%Q) by (unfold x; field).
  split_and!; [nra | nra |].
  destruct Hmx as [Hmx | Hmx]; [left | right]; nra.
Qed.

Lemma period_covers_windows_witness :
  DataLoader.period_years (F := xreal) mock_settings = Ok 7.
Proof.
  destruct (period_covers_windows mock_settings 1825 (inject_Z 5))
    as (n & Hn & _); [reflexivity | reflexivity | lia |].
  rewrite Hn. vm_compute in Hn. symmetry. exact Hn.
Defined.

(** X13. The loader turns every failure of the download, and an empty
    answer, into "no data", so a history it hands over has a last row
    for the orchestrator to read. *)
Theorem fetch_history_nonempty {F : Type} `{PyFloat F}
    (settings : Settings F) (download : string -> Z -> pyresult (Series F))
    (ticker : string) (years : Z) :
  DataLoader.period_years settings = Ok years ->
  (forall e, download ticker years = Raise e ->
     DataLoader.fetch_history settings download ticker = Ok None) /\
  (download ticker years = Ok [] ->
     DataLoader.fetch_history settings download ticker = Ok None) /\
  (forall data,
     DataLoader.fetch_history settings download ticker = Ok (Some data) ->
     download ticker years = Ok data /\
     exists price, pd.iloc_last data = Ok price).
Proof.
  intros Hy. unfold DataLoader.fetch_history. rewrite Hy. cbn.
  split_and!.
  - by intros e ->.
  - by intros ->.
  - intros data. destruct (download ticker years) as [[|row rows]|e];
      [done | | done].
    intros [= <-]. split; [done |].
    apply iloc_last_nonempty. done.
Qed.

Lemma fetch_history_nonempty_witness :
  DataLoader.fetch_history (F := float) mock_settings
    (fun _ _ => Raise ValueError) "BTC-USD" = Ok None.
Proof.
  destruct (fetch_history_nonempty (F := float) mock_settings
              (fun _ _ => Raise ValueError) "BTC-USD" 7) as [W _];
    [vm_compute; reflexivity |].
  apply (W ValueError). reflexivity.
Defined.

(** ** Exact arithmetic: the floor lies among the observed volatilities *)

Lemma insert_sorted_elem_of {F : Type} `{PyFloat F} (x y : F) (xs : list F) :
  y ∈ pd.insert_sorted x xs -> y = x \/ y ∈ xs.
Proof.
  induction xs as [|z xs IH]; cbn.
  - intros ->%list_elem_of_singleton. by left.
  - destruct (fle x z).
    + intros [-> | Hy]%elem_of_cons; [by left | by right].
    + intros [-> | Hy]%elem_of_cons; [right; left |].
      destruct (IH Hy) as [-> | Hin]; [by left | right; by right].
Qed.

Lemma sort_elem_of {F : Type} `{PyFloat F} (y : F) (xs : list F) :
  y ∈ pd.sort xs -> y ∈ xs.
Proof.
  unfold pd.sort. induction xs as [|x xs IH]; cbn; [done |].
  intros [-> | Hy]%insert_sorted_elem_of; [left | right; by apply IH].
Qed.

Lemma length_insert_sorted {F : Type} `{PyFloat F} (x : F) (xs : list F) :
  length (pd.insert_sorted x xs) = S (length xs).
Proof.
  induction xs as [|z xs IH]; cbn; [done |].
  destruct (fle x z); cbn; [done | by rewrite IH].
Qed.

Lemma length_sort {F : Type} `{PyFloat F} (xs : list F) :
  length (pd.sort xs) = length xs.
Proof.
  unfold pd.sort. induction xs as [|x xs IH]; cbn; [done |].
  by rewrite length_insert_sorted, IH.
Qed.

Definition within (lo hi : Q) (x : xreal) : Prop :=
  exists v, x = XFin v /\ (lo <= v)%Q /\ (v <= hi)%Q.

Lemma lerp_within (lo hi a b g : Q) :
  (lo <= a)%Q -> (a <= hi)%Q -> (lo <= b)%Q -> (b <= hi)%Q ->
  (0 <= g)%Q -> (g <= 1)%Q ->
  within lo hi (pd.lerp (XFin a) (XFin b) (XFin g)).
Proof.
  intros. unfold pd.lerp. cbn. unfold inject_Z.
  destruct (Qle_bool 0.5 g); eexists; (split; [reflexivity |]); nra.
Qed.

Lemma np_quantile_within (lo hi p : Q) (xs : list xreal) :
  xs <> [] -> Forall (within lo hi) xs ->
  (0 <= p)%Q -> (p <= 1)%Q ->
  exists r, pd.np_quantile xs (XFin p) = Ok r /\ within lo hi r.
Proof.
  intros Hne Hall Hp0 Hp1. unfold pd.np_quantile.
  pose proof (length_sort xs) as Hlen.
  assert (Hn : (0 < length xs)%nat) by (destruct xs; [done | cbn; lia]).
  assert (Harr : forall i x, pd.sort xs !! i = Some x -> within lo hi x).
  { intros i x Hi. apply list_elem_of_lookup_2, sort_elem_of in Hi.
    rewrite Forall_forall in Hall. by apply Hall. }
  rewrite Hlen. cbn [fmul exact lift2 of_Z].
  set (n1 := inject_Z (Z.of_nat (length xs) - 1)).
  assert (Hn1 : (0 <= n1)%Q).
  { unfold n1, Qle, inject_Z. cbn. lia. }
  assert (Hv0 : (0 <= n1 * p)%Q) by nra.
  change (ftrunc (XFin (n1 * p))) with (xtrunc (XFin (n1 * p))).
  rewrite (xtrunc_floor _ Hv0).
  pose proof (Qfloor_le (n1 * p)) as Hlo.
  pose proof (Qlt_floor (n1 * p)) as Hhi.
  rewrite inject_Z_plus in Hhi. change (inject_Z 1) with 1%Q in Hhi.
  set (k := Qfloor (n1 * p)) in *.
  assert (Hk0 : 0 <= k).
  { unfold k. change 0 with (Qfloor 0). by apply Qfloor_resp_le. }
  assert (Hk1 : k <= Z.of_nat (length xs) - 1).
  { assert (Hle : (n1 * p <= n1)%Q) by nra.
    apply Qfloor_resp_le in Hle. unfold n1 in Hle.
    by rewrite Qfloor_Z in Hle. }
  destruct (lookup_lt_is_Some_2 (pd.sort xs) (Z.to_nat k)) as [a Ha];
    [lia |].
  destruct (lookup_lt_is_Some_2 (pd.sort xs)
              (Nat.min (Z.to_nat k + 1) (length xs - 1))) as [b Hb];
    [lia |].
  rewrite Ha, Hb. cbn [default].
  destruct (Harr _ _ Ha) as (va & -> & Ha0 & Ha1).
  destruct (Harr _ _ Hb) as (vb & -> & Hb0 & Hb1).
  eexists. split; [reflexivity |].
  cbn [fsub exact lift2 of_Z].
  apply lerp_within; lra.
Qed.

(** X14. In exact arithmetic, with a defined lookback and a percentile
    between 0 and 1, the calculator always returns a floor, and the
    floor is the fallback 0.50, or undefined (no defined entry in the
    window), or a value between the smallest and the largest defined
    volatility of the series: in particular it is never negative when no
    volatility is. *)
Theorem dynamic_floor_within (config : RiskConfig xreal)
    (rolling_vol : Series xreal) (annual_days : Z) (y p lo hi : Q) :
  get config lookback_years (of_Z 5) = XFin y ->
  get config percentile (lit 0.25) = XFin p ->
  (0 <= p)%Q -> (p <= 1)%Q ->
  Forall (fun e => e.2 = XNaN \/ within lo hi e.2) rolling_vol ->
  exists floor,
    calculate_dynamic_floor config rolling_vol annual_days = Ok floor /\
    (floor = lit 0.50 \/ floor = XNaN \/ within lo hi floor).
Proof.
  intros Hy Hp Hp0 Hp1 Hall. unfold calculate_dynamic_floor.
  rewrite Hy, Hp. cbn [fmul exact lift2 of_Z]. unfold int. cbn.
  destruct (Z.ltb _ _); [exists (lit 0.50); by split; [| left] |].
  set (history := pd.tail _ rolling_vol).
  unfold pd.quantile. cbn.
  apply Qle_bool_iff in Hp0 as Hb0. apply Qle_bool_iff in Hp1 as Hb1.
  change (inject_Z 0) with 0%Q. change (inject_Z 1) with 1%Q.
  rewrite Hb0, Hb1. cbn.
  destruct (pd.dropna (history.*2)) as [|x xs] eqn:E.
  { exists XNaN. split; [done | right; by left]. }
  destruct (np_quantile_within lo hi p (x :: xs)) as (r & Hr & Hw);
    [done | | done | done |].
  - rewrite <- E. apply Forall_forall. intros v Hv.
    apply list_elem_of_filter in Hv as [Hdef Hv].
    apply list_elem_of_fmap in Hv as (e & -> & He).
    apply tail_subseteq in He.
    rewrite Forall_forall in Hall. destruct (Hall e He) as [Hnan | Hw];
      [| done].
    unfold pd.notna in Hdef. by rewrite Hnan in Hdef.
  - exists r. split; [exact Hr | right; by right].
Qed.

(** The fixture with a lookback of a hundredth of a year. *)
Definition short_lookback_config {F : Type} `{PyFloat F} : RiskConfig F := {|
  assets := [];
  settings := {|
    volatility_window := Some 30;
    crypto_trading_days := Some 365;
    stock_trading_days := Some 252;
    max_crash_cap := Some (lit 0.85);
    lookback_years := Some (lit 0.01);
    percentile := Some (lit 0.25);
    lookback_days := None;
    drift_lookback_days := None
  |};
  multipliers := {[ "Half Kelly" := lit 1.5 ]}
|}.

Lemma dynamic_floor_within_witness :
  exists floor,
    calculate_dynamic_floor (F := xreal) short_lookback_config
      (daily [XFin 0.5; XFin 0.6; XNaN; XFin 0.7]) 365 = Ok floor /\
    (floor = lit 0.50 \/ floor = XNaN \/ within 0.5 0.7 floor).
Proof.
  apply (dynamic_floor_within short_lookback_config
           (daily [XFin 0.5; XFin 0.6; XNaN; XFin 0.7]) 365 0.01 0.25 0.5 0.7);
    [reflexivity | reflexivity | lra | lra |].
  cbn. apply List.Forall_cons; [right; eexists; split; [reflexivity | lra] |].
  apply List.Forall_cons; [right; eexists; split; [reflexivity | lra] |].
  apply List.Forall_cons; [by left |].
  apply List.Forall_cons; [right; eexists; split; [reflexivity | lra] |].
  apply List.Forall_nil.
Defined.

(** ** Exact arithmetic: the survival verdict from the inputs *)

(** X15. In exact arithmetic, with a "Half Kelly" multiplier and a
    defined volatility at the high, the verdict of a Leverage Drift row
    compares the current price with the stop level athPrice * (1 -
    min(athVol * multiplier, maxCap)): at or below it the row reads
    "liquidated", above it "safe" with margin (price - stop) / price. *)
Theorem verdict_from_inputs (config : RiskConfig xreal) (ticker : string)
    (prices vol_series : Series xreal) (x v h m c : Q)
    (row : DriftRow xreal) :
  leverage_drift config ticker prices vol_series (XFin x) = Ok row ->
  ATH_Vol row = XFin v ->
  ATH_Price row = XFin h ->
  multipliers config !! "Half Kelly" = Some (XFin m) ->
  get config max_crash_cap (lit 0.85) = XFin c ->
  let stop := (h * (1 - (if Qlt_bool c (v * m) then c else v * m)))%Q in
  ((x <= stop)%Q -> SURVIVAL_CHECK row = LIQUIDATED) /\
  ((stop < x)%Q ->
   exists margin,
     SURVIVAL_CHECK row = SAFE (XFin margin) /\
     (margin == (x - stop) / x)%Q).
Proof.
  intros Hrow Hv Hh Hm Hc stop.
  apply (leverage_drift_Ok (F := xreal)) in Hrow as [_ Hcheck].
  rewrite Hv, Hh in Hcheck. unfold survival_check in Hcheck.
  change "Half Kelly Price" with (price_key "Half Kelly") in Hcheck.
  rewrite (compute_safe_prices_lookup config _ _ _ (XFin m)) in Hcheck
    by done.
  rewrite (projected_exact config v h m c Hc) in Hcheck.
  change (inject_Z 1) with 1%Q in Hcheck. fold stop in Hcheck.
  cbn in Hcheck.
  destruct (Qle_bool x stop) eqn:Hle.
  - apply Qle_bool_iff in Hle. injection Hcheck as <-.
    split; [done |]. intros Hlt. lra.
  - assert (Hlt : (stop < x)%Q).
    { apply Qnot_le_lt. intros Hle'. apply Qle_bool_iff in Hle'.
      congruence. }
    split; [intros Hle'; lra |]. intros _.
    unfold truediv in Hcheck. cbn in Hcheck.
    change (inject_Z 0) with 0%Q in Hcheck.
    destruct (Qeq_bool x 0); [discriminate Hcheck |].
    cbn in Hcheck. injection Hcheck as <-.
    eexists. split; reflexivity.
Qed.

Lemma verdict_from_inputs_witness :
  exists row margin,
    leverage_drift (F := xreal) run_config "BTC-USD" falling_prices
      (daily [XFin 0.3; XFin 0.3; XFin 0.3]) (XFin 100) = Ok row /\
    SURVIVAL_CHECK row = SAFE (XFin margin) /\
    (margin == 34 # 100)%Q.
Proof.
  assert (W : exists row,
            leverage_drift (F := xreal) run_config "BTC-USD" falling_prices
              (daily [XFin 0.3; XFin 0.3; XFin 0.3]) (XFin 100) = Ok row /\
            ATH_Vol row = XFin 0.3 /\ ATH_Price row = XFin (inject_Z 120))
    by (eexists; split_and!; vm_compute; reflexivity).
  destruct W as (row & W & Hv & Hh). exists row.
  destruct (verdict_from_inputs run_config "BTC-USD" falling_prices
              (daily [XFin 0.3; XFin 0.3; XFin 0.3]) 100 0.3 (inject_Z 120)
              1.5 0.85 row W Hv Hh eq_refl eq_refl) as [_ Hsafe].
  destruct Hsafe as (margin & Hs & Hm); [vm_compute; reflexivity |].
  exists margin. split; [exact W | split; [exact Hs |]].
  rewrite Hm. vm_compute. reflexivity.
Defined.
